(** * The essay companion of chat.py

    A shallow embedding of [EssayTherapyCompanion]: the session store, the three
    generators that talk to the completion service, and the script body
    [interactive_exploration] that Streamlit re-runs on every interaction. *)

From Stdlib Require Import Ascii String.
From stdpp Require Import base gmap list strings pretty.

(** ** Python strings

    A [str] is a [string]; each character stands for the code point of the
    same number, so the texts covered are those with code points below 256. *)

Module Py.

Definition dq : string := String "034"%char EmptyString.
Definition nl : string := String "010"%char EmptyString.

(** [if s:] on a string. *)
Definition truthy (s : string) : bool :=
  match s with
  | EmptyString => false
  | String _ _ => true
  end.

(** [x or default], for [x] that is [None] or a string. *)
Definition or_else (x : option string) (default : string) : string :=
  match x with
  | Some s => if truthy s then s else default
  | None => default
  end.

(** The characters [str.strip()] removes: tab to carriage return, the four
    separators 28-31, the space, U+0085 and U+00A0. *)
Definition isspace (c : ascii) : bool :=
  let n := nat_of_ascii c in
  ((9 <=? n) && (n <=? 13)) || ((28 <=? n) && (n <=? 32))
  || (n =? 133) || (n =? 160).

Fixpoint lstrip (s : string) : string :=
  match s with
  | EmptyString => EmptyString
  | String c r => if isspace c then lstrip r else s
  end.

Fixpoint rstrip (s : string) : string :=
  match s with
  | EmptyString => EmptyString
  | String c r =>
      match rstrip r with
      | EmptyString => if isspace c then EmptyString else String c EmptyString
      | r' => String c r'
      end
  end.

Definition strip (s : string) : string := rstrip (lstrip s).

(** Every character of [s] is one that [strip] removes. *)
Fixpoint blank (s : string) : bool :=
  match s with
  | EmptyString => true
  | String c r => isspace c && blank r
  end.

(** [template.format] with keyword arguments [kw], for templates whose
    replacement fields are plain keyword names, which is all the source
    uses: a doubled brace is a literal brace, [{name}] is replaced by the
    keyword's value, and a lone brace, an unclosed field or an unknown name
    raises ([None]). [field] holds the name read so far while inside a
    field. *)
Fixpoint format_from (kw : list (string * string)) (field : option string)
    (t : string) : option string :=
  match t, field with
  | EmptyString, None => Some EmptyString
  | EmptyString, Some _ => None
  | String c r, Some name =>
      if Ascii.eqb c "}" then
        match List.find (fun kv => String.eqb (fst kv) name) kw with
        | Some kv => (fun s => snd kv +:+ s) <$> format_from kw None r
        | None => None
        end
      else if Ascii.eqb c "{" then None
      else format_from kw (Some (name +:+ String c EmptyString)) r
  | String c r, None =>
      if Ascii.eqb c "{" then
        match r with
        | String "{" r' => String "{" <$> format_from kw None r'
        | _ => format_from kw (Some EmptyString) r
        end
      else if Ascii.eqb c "}" then
        match r with
        | String "}" r' => String "}" <$> format_from kw None r'
        | _ => None
        end
      else String c <$> format_from kw None r
  end.

Definition format (t : string) (kw : list (string * string)) : option string :=
  format_from kw None t.

End Py.

(** ** JSON values and [json.dumps] *)

(** What [json.loads] can return. A float is carried as the text
    [json.dumps] prints for it, an object as its items in order. *)
#[local] Unset Elimination Schemes.
Inductive json : Type :=
| JNull
| JBool (b : bool)
| JInt (n : Z)
| JFloat (repr : string)
| JStr (s : string)
| JList (items : list json)
| JDict (items : list (string * json)).
#[local] Set Elimination Schemes.

Module Json.

Definition hex (n : nat) : ascii :=
  nth n (list_ascii_of_string "0123456789abcdef") "0"%char.

(** One character of a string under [ensure_ascii=True]: the short escapes,
    printable ASCII as it is, [\u00xx] for the rest. *)
Definition escape (c : ascii) : string :=
  let n := nat_of_ascii c in
  if n =? 34 then "\" +:+ Py.dq
  else if n =? 92 then "\\"
  else if n =? 10 then "\n"
  else if n =? 13 then "\r"
  else if n =? 9 then "\t"
  else if n =? 8 then "\b"
  else if n =? 12 then "\f"
  else if (32 <=? n) && (n <=? 126) then String c EmptyString
  else "\u00" +:+ String (hex (n / 16)) (String (hex (n mod 16)) EmptyString).

Fixpoint escape_all (s : string) : string :=
  match s with
  | EmptyString => EmptyString
  | String c r => escape c +:+ escape_all r
  end.

Definition quoted (s : string) : string := Py.dq +:+ escape_all s +:+ Py.dq.

(** [json.dumps(v)] with the default separators. *)
Fixpoint dumps (v : json) : string :=
  match v with
  | JNull => "null"
  | JBool true => "true"
  | JBool false => "false"
  | JInt n => pretty n
  | JFloat repr => repr
  | JStr s => quoted s
  | JList items => "[" +:+ String.concat ", " (map dumps items) +:+ "]"
  | JDict items =>
      "{" +:+ String.concat ", "
                (map (fun '(k, x) => quoted k +:+ ": " +:+ dumps x) items)
      +:+ "}"
  end.

End Json.

(** ** The completion service *)

Record message := Message { role : string; content : string }.

(** The keyword arguments of [chat.completions.create]. [response_format]
    holds the [type] entry when the argument is given; [temperature] is the
    float literal as written. *)
Record request := Request {
  model : string;
  messages : list message;
  response_format : option string;
  max_tokens : Z;
  temperature : string
}.

(** What the code reads off a response: [choices[0].message.content], and
    with it what [json.loads] makes of that text ([None] when it raises). *)
Record completion := Completion { text : string; loads : option json }.

(** One call either raises (transport failure, error status, a response
    without a first choice or without text), with the exception's message,
    or yields a completion. *)
Inductive reply : Type :=
| Fails (e : string)
| Answers (c : completion).

(** [self]: the companion holds its client. The client's behaviour may
    depend on the request and on how many calls were made before. *)
Record EssayTherapyCompanion := Companion {
  groq_client : nat -> request -> reply
}.

(** ** The session store and the page *)

(** [st.session_state]. [responses] is a dict keyed by integers;
    [current_question] is [None] as long as the attribute was never
    assigned, [essay_draft] is [None] for Python's [None]. *)
Record session_state := SessionState {
  conversation_id : string;
  current_phase : string;
  responses : gmap nat string;
  explored_depths : list json;
  essay_draft : option string;
  current_question : option string
}.

(** The calls that draw on the page. The title and the question line carry a
    fixed decoration around the text given here. *)
Inductive ui : Type :=
| st_title (heading : string)
| st_question (question : string)
| st_error (msg : string)
| st_success (msg : string)
| st_write (body : option string).

(** The store, the requests issued so far (oldest first) and the page calls
    made so far. *)
Record world := World {
  st : session_state;
  calls : list request;
  page : list ui
}.

Definition with_st (f : session_state -> session_state) (w : world) : world :=
  World (f (st w)) (calls w) (page w).

Definition set_responses (r : gmap nat string) (s : session_state) :=
  SessionState (conversation_id s) (current_phase s) r (explored_depths s)
               (essay_draft s) (current_question s).

Definition set_explored_depths (d : list json) (s : session_state) :=
  SessionState (conversation_id s) (current_phase s) (responses s) d
               (essay_draft s) (current_question s).

Definition set_essay_draft (e : option string) (s : session_state) :=
  SessionState (conversation_id s) (current_phase s) (responses s)
               (explored_depths s) e (current_question s).

Definition set_current_question (q : option string) (s : session_state) :=
  SessionState (conversation_id s) (current_phase s) (responses s)
               (explored_depths s) (essay_draft s) q.

(** ** Computations: state and exceptions *)

Inductive outcome (A : Type) : Type :=
| Returns (a : A) (w : world)
| Raises (e : string) (w : world).
Arguments Returns {A} a w.
Arguments Raises {A} e w.

Definition M (A : Type) : Type := world -> outcome A.

#[export] Instance M_ret : MRet M := fun A a w => Returns a w.

#[export] Instance M_bind : MBind M := fun A B k m w =>
  match m w with
  | Returns a w' => k a w'
  | Raises e w' => Raises e w'
  end.

Definition raise {A} (e : string) : M A := fun w => Raises e w.

(** [try: body except Exception as e: handler e]. *)
Definition try_except {A} (body : M A) (handler : string -> M A) : M A :=
  fun w =>
    match body w with
    | Returns a w' => Returns a w'
    | Raises e w' => handler e w'
    end.

Definition gets {A} (f : session_state -> A) : M A := fun w => Returns (f (st w)) w.

Definition modify (f : session_state -> session_state) : M unit :=
  fun w => Returns tt (with_st f w).

Definition show (u : ui) : M unit :=
  fun w => Returns tt (World (st w) (calls w) (page w ++ [u])).

(** The world a computation leaves behind, whichever way it ends. *)
Definition after {A} (m : M A) (w : world) : world :=
  match m w with
  | Returns _ w' => w'
  | Raises _ w' => w'
  end.

Definition lift {A} (e : string) (x : option A) : M A :=
  match x with
  | Some a => mret a
  | None => raise e
  end.

(** [self.groq_client.chat.completions.create(...)] followed by
    [.choices[0].message]. *)
Definition create (self : EssayTherapyCompanion) (req : request) : M completion :=
  fun w =>
    let w' := World (st w) (calls w ++ [req]) (page w) in
    match groq_client self (length (calls w)) req with
    | Fails e => Raises e w'
    | Answers c => Returns c w'
    end.

(** [json.loads] on the text of a completion. The message of the exception
    it raises is not modelled: a fixed text stands for it. *)
Definition json_loads (c : completion) : M json :=
  lift "JSONDecodeError" (loads c).

Definition format (t : string) (kw : list (string * string)) : M string :=
  lift "format error" (Py.format t kw).

(** ** The prompts and the literal fallbacks of chat.py *)

Definition system_prompt : string :=
"
        You are a compassionate career counselor and narrative guide. 
        Your goal is to ask a single, delicate question that:
        - Feels warm and non-threatening
        - Invites genuine, vulnerable reflection
        - Uncovers hidden personal narratives
        - Creates a safe emotional space for exploration

        Questioning Principles:
        1. Questions should be:
           - Conversational in tone
           - Open-ended but focused
           - Emotionally intelligent
           - Subtly provocative

        2. Approach:
           - Start with seemingly simple inquiries
           - Allow for organic storytelling
           - Create space for unexpected revelations


        Design a question that feels like a caring friend 
        genuinely interested in understanding someone's journey. Make the questions small that lead to deep understanding of the response.
        ".

Definition analysis_prompt : string :=
  String.concat Py.dq [
"
        Compassionate Narrative Analysis:
        Please provide your analysis in JSON format with the following structure:
        {
            ";
"emotional_themes";
": [],
            ";
"unspoken_motivations";
": [],
            ";
"growth_indicators";
": [],
            ";
"narrative_threads";
": []
        }
        
        Softly Decode Response Dimensions:
        1. Emotional Undertones
        2. Unspoken Motivations
        3. Personal Growth Indicators
        4. Potential Narrative Threads

        Analysis Approach:
        - Listen between the lines
        - Identify subtle personal transformations
        - Recognize potential for deeper exploration
        - Respect the vulnerability of sharing

        Provide Gentle Insights:
        - Emerging Personal Themes
        - Potential Narrative Directions
        - Areas of Potential Deeper Reflection
        "].

Definition essay_prompt : string :=
"
        Narrative Intimacy: Transform Personal Reflections 
        into a Profoundly Authentic Master's Application Essay

        Storytelling Essence:
        - Reveal the soul behind the achievements
        - Connect personal journey to professional aspiration
        - Create an emotionally resonant narrative
        - Demonstrate vulnerability and strength

        Narrative Construction:
        1. Opening: Intimate Personal Revelation
        2. Middle: Bridge Personal Growth to Professional Vision
        3. Conclusion: Illuminate Potential for Transformative Leadership

        Candidate's Intimate Insights: {insights}

        Create an essay that:
        - Feels deeply personal
        - Demonstrates intellectual and emotional depth
        - Shows potential beyond traditional metrics
        - Leaves a lasting emotional impression
        ".

Definition fallback_question : string :=
  "What small moment in your life has quietly shaped who you are today?".

Definition fallback_analysis : json :=
  JDict [ ("emotional_themes", JList [JStr "Personal Growth"; JStr "Resilience"]);
          ("unspoken_motivations", JList [JStr "Self-improvement"]);
          ("growth_indicators", JList [JStr "Reflection"]);
          ("narrative_threads", JList [JStr "Personal Journey"]) ].

Definition fallback_essay : string :=
  "A personal reflection on growth, potential, and the transformative power of continuous learning.".

(** ** The methods of [EssayTherapyCompanion] *)

(** [stored] is the store as the run finds it. The keys this method writes
    ([conversation_id] and the four of [state_keys]) are written nowhere
    else and all in one call, so a store has none of them ([None], a new
    browser session) or all of them, and then every [not in] test fails and
    nothing is changed. *)
Definition _initialize_conversation_state (uuid4 : string)
    (stored : option session_state) : session_state :=
  match stored with
  | Some s => s
  | None =>
      SessionState uuid4 "initial_exploration" ∅ [] None None
  end.

Definition question_request (prompt : string) : request :=
  {| model := "llama3-70b-8192";
     messages :=
       [ Message "system" prompt;
         Message "user" "Craft a question that feels like a warm, curious invitation to share." ];
     response_format := None;
     max_tokens := 300;
     temperature := "0.5" |}.

Definition _generate_compassionate_question (self : EssayTherapyCompanion)
    (context : option string) : M string :=
  try_except
    (prompt ← format system_prompt
                [("context", Py.or_else context "Initial gentle exploration")];
     response ← create self (question_request prompt);
     mret (Py.strip (text response)))
    (fun e =>
       show (st_error ("Question Generation Error: " +:+ e));;
       mret fallback_question).

Definition analysis_request (response : string) : request :=
  {| model := "llama3-70b-8192";
     messages :=
       [ Message "system" analysis_prompt;
         Message "user"
           ("Please analyze the following reflection and respond in JSON format:"
            +:+ Py.nl +:+ response) ];
     response_format := Some "json_object";
     max_tokens := 500;
     temperature := "0.6" |}.

Definition _analyze_response_depth (self : EssayTherapyCompanion)
    (response : string) : M json :=
  try_except
    (analysis_response ← create self (analysis_request response);
     json_loads analysis_response)
    (fun e =>
       show (st_error ("Response Analysis Error: " +:+ e));;
       mret fallback_analysis).

Definition essay_request (prompt : string) : request :=
  {| model := "llama3-70b-8192";
     messages :=
       [ Message "system" prompt;
         Message "user" "Weave a narrative that reveals the candidate's true potential." ];
     response_format := None;
     max_tokens := 1500;
     temperature := "0.8" |}.

Definition _generate_intimate_essay (self : EssayTherapyCompanion)
    (insights : list json) : M string :=
  try_except
    (prompt ← format essay_prompt [("insights", Json.dumps (JList insights))];
     essay_response ← create self (essay_request prompt);
     mret (Py.strip (text essay_response)))
    (fun e =>
       show (st_error ("Essay Generation Error: " +:+ e));;
       mret fallback_essay).

(** What one run of the script finds around it: the value [uuid.uuid4()]
    would give, the text in the [st.text_area] and whether the
    [Continue Exploring] button was the one just clicked. *)
Record script_run := ScriptRun {
  uuid4 : string;
  user_input : string;
  button : bool
}.

Definition getattr_current_question : M string :=
  fun w => lift "AttributeError: current_question" (current_question (st w)) w.

(** Lines 184-186 of [interactive_exploration]: the question asked before any
    response is looked at. *)
Definition start (self : EssayTherapyCompanion) : M unit :=
  phase ← gets current_phase;
  if String.eqb phase "initial_exploration" then
    question ← _generate_compassionate_question self None;
    modify (set_current_question (Some question))
  else mret tt.

(** Lines 194-217 of [interactive_exploration]: what a click on the button
    does with the text [user_response]. *)
Definition submitResponse (self : EssayTherapyCompanion)
    (user_response : string) : M unit :=
  if Py.truthy user_response then
    current_response_key ← gets (fun s => size (responses s));
    modify (fun s => set_responses (<[current_response_key := user_response]> (responses s)) s);;
    response_analysis ← _analyze_response_depth self user_response;
    modify (fun s => set_explored_depths (explored_depths s ++ [response_analysis]) s);;
    depth ← gets (fun s => length (explored_depths s));
    if depth <? 5 then
      question ← _generate_compassionate_question self
                   (Some (Json.dumps response_analysis));
      modify (set_current_question (Some question))
    else
      insights ← gets explored_depths;
      essay ← _generate_intimate_essay self insights;
      modify (set_essay_draft (Some essay));;
      show (st_success "Your Personal Narrative Emerges...");;
      draft ← gets essay_draft;
      show (st_write draft)
  else mret tt.

Definition interactive_exploration (self : EssayTherapyCompanion)
    (r : script_run) : M unit :=
  show (st_title "MiM Essay Personal Journey Companion");;
  start self;;
  question ← getattr_current_question;
  show (st_question question);;
  if button r then submitResponse self (user_input r) else mret tt.

(** [main], on the world the previous run left ([None] on the first run,
    when the store has no key yet). Building the companion runs
    [_initialize_conversation_state]. *)
Definition main (self : EssayTherapyCompanion) (r : script_run)
    (before : option world) : outcome unit :=
  match before with
  | None =>
      interactive_exploration self r
        (World (_initialize_conversation_state (uuid4 r) None) [] [])
  | Some w =>
      interactive_exploration self r
        (World (_initialize_conversation_state (uuid4 r) (Some (st w)))
               (calls w) (page w))
  end.

(** ** Sessions and the vocabulary of the properties *)

(** The world right after the first [_initialize_conversation_state]. *)
Definition fresh (id : string) : world :=
  World (_initialize_conversation_state id None) [] [].

(** The worlds a session can be in between two operations. *)
Inductive reachable (self : EssayTherapyCompanion) : world -> Prop :=
| reachable_fresh id :
    reachable self (fresh id)
| reachable_start w :
    reachable self w -> reachable self (after (start self) w)
| reachable_submit w user_response :
    reachable self w ->
    reachable self (after (submitResponse self user_response) w)
| reachable_script w r :
    reachable self w ->
    reachable self (after (interactive_exploration self r) w).

(** Submitting the texts one after the other. *)
Definition submit_all (self : EssayTherapyCompanion) (texts : list string)
    (w : world) : world :=
  foldl (fun w text => after (submitResponse self text) w) w texts.

Definition required_fields : list string :=
  [ "emotional_themes"; "unspoken_motivations"; "growth_indicators";
    "narrative_threads" ].

Definition field (name : string) (items : list (string * json)) : option json :=
  snd <$> List.find (fun kv => String.eqb (fst kv) name) items.

Definition is_collection (v : option json) : bool :=
  match v with
  | Some (JList _) => true
  | _ => false
  end.

(** An insight record with exactly the four required fields, each a list. *)
Definition complete_record (v : json) : bool :=
  match v with
  | JDict items =>
      (length items =? 4)
      && forallb (fun name => is_collection (field name items)) required_fields
  | _ => false
  end.

(** The value a generator hands back, and whether it ended by raising. *)
Definition value_of {A} (o : outcome A) : option A :=
  match o with
  | Returns a _ => Some a
  | Raises _ _ => None
  end.

(** *** Concrete services used in the examples *)

(** Answers every call with the same text. *)
Definition always (c : completion) : EssayTherapyCompanion :=
  Companion (fun _ _ => Answers c).

(** Answers the k-th call with a text that names k, and with the fallback
    record as its JSON reading. *)
Definition numbering : EssayTherapyCompanion :=
  Companion (fun k _ =>
    Answers (Completion ("answer " +:+ pretty k) (Some fallback_analysis))).

(** Every call raises. *)
Definition offline : EssayTherapyCompanion :=
  Companion (fun _ _ => Fails "Connection error.").

(** *** What each generator makes of the service's reply *)

Definition question_of (r : reply) : string :=
  match r with
  | Fails _ => fallback_question
  | Answers c => Py.strip (text c)
  end.

Definition analysis_of (r : reply) : json :=
  match r with
  | Fails _ => fallback_analysis
  | Answers c => default fallback_analysis (loads c)
  end.

Definition essay_of (r : reply) : string :=
  match r with
  | Fails _ => fallback_essay
  | Answers c => Py.strip (text c)
  end.

(** The reply is a text made of nothing but the characters [strip] removes. *)
Definition blank_answer (r : reply) : bool :=
  match r with
  | Fails _ => false
  | Answers c => Py.blank (text c)
  end.

(** The essay prompt with the insights filled in. *)
Definition essay_prompt_for (insights : list json) : string :=
  default EmptyString
    (Py.format essay_prompt [("insights", Json.dumps (JList insights))]).

Fixpoint braceless (t : string) : bool :=
  match t with
  | EmptyString => true
  | String c r =>
      negb (Ascii.eqb c "{") && negb (Ascii.eqb c "}") && braceless r
  end.

(** What holds of the store in every reachable world: the phase never
    moves, the keys of [responses] are the indices of [explored_depths], and
    the essay is there from the fifth insight on. *)
Definition consistent (s : session_state) : Prop :=
  current_phase s = "initial_exploration"
  ∧ (∀ k, is_Some (responses s !! k) ↔ k < length (explored_depths s))
  ∧ (is_Some (essay_draft s) ↔ 5 ≤ length (explored_depths s)).

(** The store once a response and its analysis have been put in. *)
Definition recorded (user_response : string) (analysis : json)
    (s : session_state) : session_state :=
  set_explored_depths (explored_depths s ++ [analysis])
    (set_responses (<[size (responses s) := user_response]> (responses s)) s).

(** Every essay held by the store came out of [essay_of] on some reply. *)
Definition essay_from_service (self : EssayTherapyCompanion)
    (s : session_state) : Prop :=
  essay_draft s = None
  ∨ ∃ k req, essay_draft s = Some (essay_of (groq_client self k req)).

(** The script run again and again, each run on the world the one before
    left, whether it ended normally or not. *)
Fixpoint session (self : EssayTherapyCompanion) (runs : list script_run)
    (before : option world) : option world :=
  match runs with
  | [] => before
  | r :: rest =>
      let w := match main self r before with
               | Returns _ w => w
               | Raises _ w => w
               end in
      session self rest (Some w)
  end.

(** *** Concrete inputs used in the examples *)

Definition five_reflections : list string :=
  [ "I left home at nineteen.";
    "My grandmother taught me patience.";
    "I failed my first exam.";
    "Teaching others made me listen.";
    "I want to build things that last." ].

Definition empty_object : completion :=
  Completion "{}" (Some (JDict [])).

Definition one_field : json :=
  JDict [("emotional_themes", JList [JStr "Hope"])].

Definition one_field_object : completion :=
  Completion ("{" +:+ Py.dq +:+ "emotional_themes" +:+ Py.dq +:+ ": ["
              +:+ Py.dq +:+ "Hope" +:+ Py.dq +:+ "]}")
             (Some one_field).

Definition spaces : completion := Completion "   " None.

(** *** Vocabulary of the further properties *)

Definition is_error (u : ui) : bool :=
  match u with
  | st_error _ => true
  | _ => false
  end.

(** The notice each generator puts on the page when it falls back. *)
Definition question_notice (r : reply) : list ui :=
  match r with
  | Fails e => [st_error ("Question Generation Error: " +:+ e)]
  | Answers _ => []
  end.

Definition analysis_notice (r : reply) : list ui :=
  match r with
  | Fails e => [st_error ("Response Analysis Error: " +:+ e)]
  | Answers c =>
      match loads c with
      | Some _ => []
      | None => [st_error ("Response Analysis Error: " +:+ "JSONDecodeError")]
      end
  end.

Definition essay_notice (r : reply) : list ui :=
  match r with
  | Fails e => [st_error ("Essay Generation Error: " +:+ e)]
  | Answers _ => []
  end.

(** The reply makes the analyzer fall back: the call failed or its text is
    not JSON. *)
Definition unusable (r : reply) : bool :=
  match r with
  | Fails _ => true
  | Answers c =>
      match loads c with
      | Some _ => false
      | None => true
      end
  end.

Definition failed (r : reply) : bool :=
  match r with
  | Fails _ => true
  | Answers _ => false
  end.

(** The run hands a text to the submission body and the body takes it. *)
Definition clicked (r : script_run) : bool :=
  button r && Py.truthy (user_input r).

(** The texts a sequence of runs gets stored, in order. *)
Definition accepted (runs : list script_run) : list string :=
  user_input <$> List.filter clicked runs.

(** A world, and a world the same session is in later. *)
Inductive later (self : EssayTherapyCompanion) : world -> world -> Prop :=
| later_now w :
    later self w w
| later_start w w' :
    later self w w' -> later self w (after (start self) w')
| later_submit w w' user_response :
    later self w w' ->
    later self w (after (submitResponse self user_response) w')
| later_script w w' r :
    later self w w' ->
    later self w (after (interactive_exploration self r) w').

(** The page calls a computation adds. *)
Definition drawn {A} (m : M A) (w : world) : list ui :=
  drop (length (page w)) (page (after m w)).

(** The requests a computation issues. *)
Definition issued {A} (m : M A) (w : world) : list request :=
  drop (length (calls w)) (calls (after m w)).

(** A browser session: a first look, a reflection, three spaces, and a
    text left in the box without a click. *)
Definition browsing : list script_run :=
  [ ScriptRun "first" EmptyString false;
    ScriptRun "second" "I left home at nineteen." true;
    ScriptRun "third" "   " true;
    ScriptRun "fourth" "Not sent." false ].

(** Nothing recorded in [w] is lost in [w']. *)
Definition grown (w w' : world) : Prop :=
  explored_depths (st w) `prefix_of` explored_depths (st w')
  ∧ responses (st w) ⊆ responses (st w')
  ∧ (is_Some (essay_draft (st w)) → is_Some (essay_draft (st w')))
  ∧ calls w `prefix_of` calls w'
  ∧ page w `prefix_of` page w'.

(** The part of a template before its first opening brace, and the part
    after its first closing brace. *)
Fixpoint before_field (t : string) : string :=
  match t with
  | EmptyString => EmptyString
  | String c r => if Ascii.eqb c "{" then EmptyString else String c (before_field r)
  end.

Fixpoint after_field (t : string) : string :=
  match t with
  | EmptyString => EmptyString
  | String c r => if Ascii.eqb c "}" then r else after_field r
  end.

(** The world that session ends in. *)
Definition browsed : world :=
  default (fresh EmptyString) (session numbering browsing None).

(** The script run once for each element of [runs], from the world [w]. *)
Definition rerun_all (self : EssayTherapyCompanion) (runs : list script_run)
    (w : world) : world :=
  foldl (fun w r => after (interactive_exploration self r) w) w runs.

Definition visible (u : ui) : bool := negb (is_error u).

(** The questions among the page calls, in the order they were drawn. *)
Definition shown_question (u : ui) : option string :=
  match u with
  | st_question q => Some q
  | _ => None
  end.

Definition questions_shown (p : list ui) : list string :=
  omap shown_question p.

(** Answers the k-th call with a plain text that names k; the text is not
    JSON. *)
Definition counting : EssayTherapyCompanion :=
  Companion (fun k _ => Answers (Completion ("answer " +:+ pretty k) None)).

(** A first look at the page, then four reflections sent one by one. *)
Definition four_clicks : list script_run :=
  ScriptRun "session" EmptyString false
  :: map (fun text => ScriptRun "session" text true) (take 4 five_reflections).

(** The world after them, and the click that sends the fifth reflection. *)
Definition after_four_clicks : world :=
  rerun_all counting four_clicks (fresh "session").

Definition fifth_click : script_run :=
  ScriptRun "session" "I want to build things that last." true.

(** * Properties *)

(** ** Strings *)

Section Strings.

Lemma format_braceless kw t :
  braceless t = true → Py.format_from kw None t = Some t.
Proof.
  induction t as [|c r IH]; [done|].
  cbn [braceless Py.format_from].
  destruct (Ascii.eqb c "{"); [done|].
  destruct (Ascii.eqb c "}"); [done|].
  cbn [negb andb]. intros Hr. by rewrite (IH Hr).
Qed.

Lemma rstrip_empty s : Py.rstrip s = EmptyString ↔ Py.blank s = true.
Proof.
  induction s as [|c r IH]; [done|].
  cbn [Py.rstrip Py.blank]. rewrite andb_true_iff, <- IH.
  destruct (Py.rstrip r), (Py.isspace c); intuition congruence.
Qed.

Lemma lstrip_cases s :
  (Py.blank s = true ∧ Py.lstrip s = EmptyString)
  ∨ (Py.blank s = false
     ∧ ∃ c r, Py.lstrip s = String c r ∧ Py.isspace c = false).
Proof.
  induction s as [|c r IH]; [by left|].
  cbn [Py.lstrip Py.blank]. destruct (Py.isspace c) eqn:Hc; [done|].
  right. split; [done|]. by exists c, r.
Qed.

Lemma strip_empty s : Py.strip s = EmptyString ↔ Py.blank s = true.
Proof.
  unfold Py.strip.
  destruct (lstrip_cases s) as [[Hb ->]|[Hb (c & r & -> & Hc)]].
  - by rewrite Hb.
  - rewrite rstrip_empty, Hb. cbn [Py.blank]. by rewrite Hc.
Qed.

Example strip_example :
  Py.strip (" " +:+ Py.nl +:+ "What matters to you? " +:+ Py.nl)
  = "What matters to you?".
Proof. reflexivity. Qed.

Example format_example :
  Py.format "{{{who}}} and {who}" [("who", "me")] = Some "{me} and me"
  ∧ Py.format "{what}" [("who", "me")] = None
  ∧ Py.format "so}" [("who", "me")] = None.
Proof. by vm_compute. Qed.

Example dumps_example :
  Json.dumps (JDict [("a", JList [JInt (-1); JNull; JBool true; JStr "x"])])
  = String.concat Py.dq ["{"; "a"; ": [-1, null, true, "; "x"; "]}"].
Proof. reflexivity. Qed.

Lemma format_system_prompt kw :
  Py.format system_prompt kw = Some system_prompt.
Proof. apply format_braceless. by vm_compute. Qed.

Lemma format_essay_prompt insights :
  Py.format essay_prompt [("insights", Json.dumps (JList insights))]
  = Some (essay_prompt_for insights).
Proof.
  unfold essay_prompt_for.
  generalize (Json.dumps (JList insights)) as v. intros v.
  assert (is_Some (Py.format essay_prompt [("insights", v)])) as [p Hp].
  { eexists. vm_compute. reflexivity. }
  by rewrite Hp.
Qed.

End Strings.

(** ** The generators, as functions of the service's reply *)

Section Generators.

Variable self : EssayTherapyCompanion.

Lemma question_spec context w :
  let req := question_request system_prompt in
  let answer := groq_client self (length (calls w)) req in
  ∃ shown,
    _generate_compassionate_question self context w
    = Returns (question_of answer)
        (World (st w) (calls w ++ [req]) (page w ++ shown))
    ∧ (shown = [] ∨ ∃ e, answer = Fails e).
Proof.
  intros req answer.
  unfold _generate_compassionate_question, try_except, mbind, M_bind, format.
  rewrite format_system_prompt. cbn [lift]. unfold mret, M_ret, create.
  fold req. fold answer. destruct answer as [e|c] eqn:Ha.
  - eexists [_]. split; [reflexivity|]. right. by exists e.
  - exists []. rewrite app_nil_r. split; [reflexivity|]. by left.
Qed.

Lemma analysis_spec response w :
  let req := analysis_request response in
  let answer := groq_client self (length (calls w)) req in
  ∃ shown,
    _analyze_response_depth self response w
    = Returns (analysis_of answer)
        (World (st w) (calls w ++ [req]) (page w ++ shown)).
Proof.
  intros req answer.
  unfold _analyze_response_depth, try_except, mbind, M_bind, create, json_loads.
  fold req. fold answer. destruct answer as [e|[content [v|]]].
  - by eexists [_].
  - exists []. by rewrite app_nil_r.
  - by eexists [_].
Qed.

Lemma essay_spec insights w :
  let req := essay_request (essay_prompt_for insights) in
  let answer := groq_client self (length (calls w)) req in
  ∃ shown,
    _generate_intimate_essay self insights w
    = Returns (essay_of answer)
        (World (st w) (calls w ++ [req]) (page w ++ shown)).
Proof.
  intros req answer.
  unfold _generate_intimate_essay, try_except, mbind, M_bind, format.
  rewrite format_essay_prompt. cbn [lift]. unfold mret, M_ret, create.
  fold req. fold answer. destruct answer as [e|c].
  - by eexists [_].
  - exists []. by rewrite app_nil_r.
Qed.

End Generators.

(** ** The two operations on the store *)

Section Operations.

Variable self : EssayTherapyCompanion.

Lemma start_effect w :
  current_phase (st w) = "initial_exploration" →
  let req := question_request system_prompt in
  let answer := groq_client self (length (calls w)) req in
  ∃ shown,
    start self w
    = Returns tt
        (World (set_current_question (Some (question_of answer)) (st w))
               (calls w ++ [req]) (page w ++ shown)).
Proof.
  intros Hphase req answer.
  destruct (question_spec self None w) as (shown & Hq & _).
  exists shown. unfold start, mbind, M_bind, gets.
  rewrite Hphase. cbn [String.eqb Ascii.eqb Bool.eqb].
  by rewrite Hq.
Qed.

Lemma start_elsewhere w :
  current_phase (st w) ≠ "initial_exploration" → start self w = Returns tt w.
Proof.
  intros Hphase. unfold start, mbind, M_bind, gets.
  by rewrite (proj2 (String.eqb_neq _ _) Hphase).
Qed.

Lemma submit_effect c r w :
  let user_response := String c r in
  let asked := analysis_request user_response in
  let s := recorded user_response
             (analysis_of (groq_client self (length (calls w)) asked)) (st w) in
  let next := S (length (calls w)) in
  ∃ shown,
    submitResponse self user_response w
    = Returns tt
        (if length (explored_depths s) <? 5 then
           let req := question_request system_prompt in
           World (set_current_question
                    (Some (question_of (groq_client self next req))) s)
                 (calls w ++ [asked; req]) (page w ++ shown)
         else
           let req := essay_request (essay_prompt_for (explored_depths s)) in
           World (set_essay_draft
                    (Some (essay_of (groq_client self next req))) s)
                 (calls w ++ [asked; req]) (page w ++ shown)).
Proof.
  intros user_response asked s next.
  set (w1 := with_st (λ s0, set_responses
                (<[size (responses (st w)) := user_response]> (responses s0)) s0) w).
  destruct (analysis_spec self user_response w1) as [sh1 H1].
  change (calls w1) with (calls w) in H1. fold asked in H1.
  set (a := analysis_of (groq_client self (length (calls w)) asked)) in *.
  set (w2 := with_st (λ s0, set_explored_depths (explored_depths s0 ++ [a]) s0)
               (World (st w1) (calls w ++ [asked]) (page w1 ++ sh1))).
  destruct (question_spec self (Some (Json.dumps a)) w2) as (sh2 & H2 & _).
  destruct (essay_spec self (explored_depths (st w2)) w2) as [sh3 H3].
  assert (length (calls w2) = next) as Hnext.
  { unfold w2, next. cbn [calls with_st]. rewrite length_app. cbn. lia. }
  rewrite Hnext in H2, H3.
  assert (st w2 = s) as Hs by reflexivity.
  exists (if length (explored_depths s) <? 5 then sh1 ++ sh2
          else sh1 ++ sh3 ++ [st_success "Your Personal Narrative Emerges...";
                              st_write (essay_draft (set_essay_draft
                                (Some (essay_of (groq_client self next
                                   (essay_request (essay_prompt_for (explored_depths s)))))) s))]).
  unfold submitResponse, user_response. cbn [Py.truthy].
  unfold mbind, M_bind, gets, modify. fold user_response. fold w1.
  rewrite H1. fold w2. rewrite Hs.
  destruct (length (explored_depths s) <? 5).
  - rewrite H2. unfold with_st. cbn [st calls page]. rewrite Hs.
    change (calls w2) with (calls w ++ [asked]).
    change (page w2) with (page w ++ sh1).
    by rewrite <- !app_assoc.
  - cbn beta. rewrite H3. unfold with_st, show. cbn [st calls page].
    rewrite !Hs.
    change (calls w2) with (calls w ++ [asked]).
    change (page w2) with (page w ++ sh1).
    by rewrite <- !app_assoc.
Qed.

End Operations.

(** ** What every reachable store satisfies *)

Section Invariant.

Variable self : EssayTherapyCompanion.

Lemma size_of_keys (m : gmap nat string) n :
  (∀ k, is_Some (m !! k) ↔ k < n) → size m = n.
Proof.
  intros Hkeys. rewrite <- (size_dom (D := gset nat)).
  assert (dom m = set_seq 0 n) as ->; [|apply size_set_seq].
  apply set_eq. intros k.
  rewrite elem_of_dom, elem_of_set_seq, Hkeys. lia.
Qed.

Lemma consistent_fresh id : consistent (st (fresh id)).
Proof.
  repeat split; cbn; try lia.
  - rewrite lookup_empty. by intros [? ?].
  - by intros [? ?].
Qed.

Lemma consistent_recorded user_response a s :
  consistent s →
  let s' := recorded user_response a s in
  current_phase s' = "initial_exploration"
  ∧ (∀ k, is_Some (responses s' !! k) ↔ k < length (explored_depths s'))
  ∧ essay_draft s' = essay_draft s
  ∧ length (explored_depths s') = S (length (explored_depths s))
  ∧ size (responses s') = S (size (responses s)).
Proof.
  intros (Hphase & Hkeys & Hessay) s'.
  pose proof (size_of_keys _ _ Hkeys) as Hsize.
  assert (length (explored_depths s') = S (length (explored_depths s))) as Hlen.
  { cbn. rewrite length_app. cbn. lia. }
  assert (∀ k, is_Some (responses s' !! k) ↔ k < length (explored_depths s'))
    as Hkeys'.
  { intros k. rewrite Hlen. cbn. rewrite lookup_insert_is_Some, Hkeys, Hsize. lia. }
  repeat split; try done; try apply Hkeys'.
  rewrite (size_of_keys _ _ Hkeys'), Hsize. exact Hlen.
Qed.

Lemma consistent_start w :
  consistent (st w) → consistent (st (after (start self) w)).
Proof.
  intros Hw. destruct (start_effect self w) as [shown Hs]; [apply Hw|].
  unfold after. rewrite Hs. exact Hw.
Qed.

Lemma consistent_submit user_response w :
  consistent (st w) →
  consistent (st (after (submitResponse self user_response) w)).
Proof.
  intros Hw. destruct user_response as [|c r]; [done|].
  destruct (submit_effect self c r w) as [shown Hs].
  unfold after. rewrite Hs. clear Hs.
  set (s := recorded _ _ _).
  destruct (consistent_recorded (String c r)
              (analysis_of (groq_client self (length (calls w))
                              (analysis_request (String c r)))) _ Hw)
    as (Hphase & Hkeys & Hessay & Hlen & _).
  fold s in Hphase, Hkeys, Hessay, Hlen.
  destruct Hw as (_ & _ & Hdraft).
  destruct (length (explored_depths s) <? 5) eqn:Hdepth; cbn [st].
  - apply Nat.ltb_lt in Hdepth. split; [done|split; [exact Hkeys|]].
    cbn [essay_draft explored_depths set_current_question].
    rewrite Hessay, Hdraft. lia.
  - apply Nat.ltb_ge in Hdepth. split; [done|split; [exact Hkeys|]].
    cbn [essay_draft set_essay_draft explored_depths]. split; [done|by eexists].
Qed.

Lemma script_effect r w :
  current_phase (st w) = "initial_exploration" →
  ∃ w1,
    st w1 = st (after (start self) w)
    ∧ calls w1 = calls (after (start self) w)
    ∧ interactive_exploration self r w
      = (if button r then submitResponse self (user_input r) else mret tt) w1.
Proof.
  intros Hphase.
  destruct (start_effect self (World (st w) (calls w)
              (page w ++ [st_title "MiM Essay Personal Journey Companion"])))
    as [sh1 H1]; [done|].
  destruct (start_effect self w) as [sh2 H2]; [done|].
  unfold interactive_exploration, mbind, M_bind, show.
  unfold after. rewrite H1, H2. cbn [st calls page].
  unfold getattr_current_question. cbn.
  eexists. split; [|split; [|reflexivity]]; done.
Qed.

Lemma consistent_script r w :
  consistent (st w) →
  consistent (st (after (interactive_exploration self r) w)).
Proof.
  intros Hw. destruct (script_effect r w) as (w1 & Hst & _ & Hrun); [apply Hw|].
  unfold after at 1. rewrite Hrun.
  assert (consistent (st w1)) as Hw1.
  { rewrite Hst. by apply consistent_start. }
  destruct (button r); [|done].
  by apply consistent_submit.
Qed.

Lemma reachable_consistent w : reachable self w → consistent (st w).
Proof.
  induction 1;
    auto using consistent_fresh, consistent_start, consistent_submit,
               consistent_script.
Qed.

End Invariant.

(** ** Sessions *)

Section Sessions.

Variable self : EssayTherapyCompanion.

Lemma world_eta w : World (st w) (calls w) (page w) = w.
Proof. by destruct w. Qed.

Lemma session_reachable runs before :
  (∀ w, before = Some w → reachable self w) →
  ∀ w', session self runs before = Some w' → reachable self w'.
Proof.
  revert before. induction runs as [|r runs IH]; intros before Hbefore w'.
  - apply Hbefore.
  - cbn [session]. apply IH. intros w1 [= <-].
    destruct before as [w|]; cbn [main _initialize_conversation_state].
    + rewrite world_eta. apply (reachable_script self w r). by apply Hbefore.
    + apply (reachable_script self (fresh (uuid4 r)) r), reachable_fresh.
Qed.

Lemma submit_all_reachable texts w :
  reachable self w → reachable self (submit_all self texts w).
Proof.
  revert w. induction texts as [|text texts IH]; intros w Hw; [done|].
  apply IH. by apply reachable_submit.
Qed.

Lemma submit_depth c r w :
  length (explored_depths (st (after (submitResponse self (String c r)) w)))
  = S (length (explored_depths (st w))).
Proof.
  destruct (submit_effect self c r w) as [shown Hs].
  unfold after. rewrite Hs.
  destruct (_ <? 5); cbn; rewrite length_app; cbn; lia.
Qed.

Lemma submit_all_depth texts w :
  Forall (λ text, Py.truthy text = true) texts →
  length (explored_depths (st (submit_all self texts w)))
  = length (explored_depths (st w)) + length texts.
Proof.
  intros Htexts. revert w.
  induction Htexts as [|text texts Htext _ IH]; intros w; [cbn; lia|].
  destruct text as [|c r]; [done|].
  change (submit_all self (String c r :: texts) w)
    with (submit_all self texts (after (submitResponse self (String c r)) w)).
  rewrite IH, submit_depth. cbn [length]. lia.
Qed.

Lemma essay_from_service_reachable w :
  reachable self w → essay_from_service self (st w).
Proof.
  assert (∀ text w, essay_from_service self (st w) →
            essay_from_service self (st (after (submitResponse self text) w)))
    as Hsubmit.
  { intros [|c r] w0 Hw0; [done|].
    destruct (submit_effect self c r w0) as [shown Hs].
    unfold after. rewrite Hs.
    destruct (_ <? 5); cbn [st]; [exact Hw0|]. right. by eexists _, _. }
  induction 1 as [id|w Hw IH|w text Hw IH|w r Hw IH].
  - by left.
  - destruct (start_effect self w) as [shown Hs];
      [apply (reachable_consistent self w Hw)|].
    unfold after. by rewrite Hs.
  - by apply Hsubmit.
  - destruct (script_effect self r w) as (w1 & Hst & _ & Hrun);
      [apply (reachable_consistent self w Hw)|].
    assert (essay_from_service self (st w1)) as Hw1.
    { rewrite Hst. destruct (start_effect self w) as [shown Hs];
        [apply (reachable_consistent self w Hw)|].
      unfold after. by rewrite Hs. }
    unfold after at 1. rewrite Hrun.
    destruct (button r); [by apply Hsubmit|done].
Qed.

End Sessions.

(** Clicks in a browser: each run asks for a question before it looks at the
    response, so a run with a click issues three requests. The essay is
    synthesized in the fifth run and again in the sixth. *)
Example six_clicks :
  let clicks :=
    map (λ text, ScriptRun "session" text true)
        (five_reflections ++ ["One more thought."]) in
  let seen (w : world) :=
    (length (calls w), length (explored_depths (st w)), essay_draft (st w),
     current_phase (st w)) in
  seen <$> session numbering (take 5 clicks) None
  = Some (15, 5, Some "answer 14", "initial_exploration")
  ∧ seen <$> session numbering clicks None
    = Some (18, 6, Some "answer 17", "initial_exploration").
Proof. by vm_compute. Qed.

(** ** The conversation: responses, insights, essay and phase *)

(** C8. In every reachable world [responses] and [explored_depths] have the
    same number of entries, and a submission of a non-empty text adds exactly
    one entry to each: the text under the next index and one insight record
    at the end. *)
Theorem responses_match_insights self w :
  reachable self w →
  size (responses (st w)) = length (explored_depths (st w))
  ∧ ∀ c r,
      let w' := after (submitResponse self (String c r)) w in
      size (responses (st w')) = S (size (responses (st w)))
      ∧ length (explored_depths (st w')) = S (length (explored_depths (st w)))
      ∧ responses (st w') !! size (responses (st w)) = Some (String c r)
      ∧ ∃ insight,
          explored_depths (st w') = explored_depths (st w) ++ [insight].
Proof.
  intros Hw. pose proof (reachable_consistent self w Hw) as Hc.
  split; [apply size_of_keys, Hc|]. intros c r w'.
  destruct (submit_effect self c r w) as [shown Hs].
  destruct (consistent_recorded (String c r)
              (analysis_of (groq_client self (length (calls w))
                              (analysis_request (String c r)))) _ Hc)
    as (_ & _ & _ & Hlen & Hsize).
  unfold w', after. rewrite Hs.
  destruct (_ <? 5); cbn [st]; (split; [exact Hsize|split; [exact Hlen|]]);
    cbn; rewrite lookup_insert_eq; eauto.
Qed.

Lemma responses_match_insights_witness :
  let w := after (submitResponse offline "   ") (fresh "session") in
  reachable offline w
  ∧ size (responses (st w)) = length (explored_depths (st w)).
Proof.
  assert (reachable offline
            (after (submitResponse offline "   ") (fresh "session"))) as Hw.
  { apply reachable_submit, reachable_fresh. }
  split; [exact Hw|]. exact (proj1 (responses_match_insights offline _ Hw)).
Defined.

(** C3, as the code has it. In every reachable world the essay is set if and
    only if at least five insight records are stored; the phase is
    [initial_exploration] throughout and so never [complete]. *)
Theorem essay_iff_five_insights self w :
  reachable self w →
  (is_Some (essay_draft (st w)) ↔ 5 ≤ length (explored_depths (st w)))
  ∧ current_phase (st w) = "initial_exploration".
Proof.
  intros Hw. destruct (reachable_consistent self w Hw) as (Hphase & _ & Hessay).
  by split.
Qed.

Lemma essay_iff_five_insights_witness :
  let w := submit_all numbering five_reflections (fresh "session") in
  reachable numbering w
  ∧ (is_Some (essay_draft (st w)) ↔ 5 ≤ length (explored_depths (st w))).
Proof.
  assert (reachable numbering
            (submit_all numbering five_reflections (fresh "session"))) as Hw.
  { apply submit_all_reachable, reachable_fresh. }
  split; [exact Hw|]. exact (proj1 (essay_iff_five_insights numbering _ Hw)).
Defined.

(** C3 as stated fails: after five submissions the essay is set while the
    phase is still [initial_exploration]. *)
Lemma essay_set_phase_not_complete :
  let w := submit_all numbering five_reflections (fresh "session") in
  reachable numbering w
  ∧ essay_draft (st w) = Some "answer 9"
  ∧ current_phase (st w) = "initial_exploration"
  ∧ current_phase (st w) ≠ "complete".
Proof.
  split; [apply submit_all_reachable, reachable_fresh|].
  by vm_compute.
Qed.

(** C1, as the code has it. After exactly five submissions of non-empty
    texts to a fresh session the essay is set, by the fifth call and not
    before, and the phase is still [initial_exploration]. There is no
    terminal state: every further non-empty submission is stored under the
    next index, is analysed into one more insight, and the essay is
    synthesized again from the grown history and overwritten with the
    outcome. *)
Theorem fifth_submission_synthesizes self id texts :
  length texts = 5 →
  Forall (λ text, Py.truthy text = true) texts →
  let w5 := submit_all self texts (fresh id) in
  current_phase (st w5) = "initial_exploration"
  ∧ is_Some (essay_draft (st w5))
  ∧ (∀ k, k < 5 →
       essay_draft (st (submit_all self (take k texts) (fresh id))) = None)
  ∧ ∀ more c r,
      Forall (λ text, Py.truthy text = true) more →
      let w := submit_all self more w5 in
      let w' := after (submitResponse self (String c r)) w in
      let again := essay_request (essay_prompt_for (explored_depths (st w'))) in
      responses (st w') = <[5 + length more := String c r]> (responses (st w))
      ∧ length (explored_depths (st w')) = 6 + length more
      ∧ calls w' = calls w ++ [analysis_request (String c r); again]
      ∧ essay_draft (st w')
        = Some (essay_of (groq_client self (S (length (calls w))) again)).
Proof.
  intros Hlen Htexts w5.
  assert (reachable self w5) as Hw5 by apply submit_all_reachable, reachable_fresh.
  assert (length (explored_depths (st w5)) = 5) as Hdepth.
  { unfold w5. rewrite submit_all_depth by done. cbn. lia. }
  destruct (reachable_consistent self w5 Hw5) as (Hphase & _ & Hessay).
  split; [done|]. split; [apply Hessay; lia|]. split.
  - intros k Hk.
    set (w := submit_all self (take k texts) (fresh id)).
    assert (reachable self w) as Hw by apply submit_all_reachable, reachable_fresh.
    destruct (reachable_consistent self w Hw) as (_ & _ & Hnone).
    assert (length (explored_depths (st w)) = k) as Hdepthk.
    { unfold w. rewrite submit_all_depth by by apply Forall_take.
      rewrite length_take. cbn. lia. }
    destruct (essay_draft (st w)) as [e|]; [|done].
    assert (5 ≤ length (explored_depths (st w))) by (apply Hnone; by eexists).
    lia.
  - intros more c r Hmore w w' again.
    assert (reachable self w) as Hw by by apply submit_all_reachable.
    assert (length (explored_depths (st w)) = 5 + length more) as Hdepthw.
    { unfold w. rewrite submit_all_depth by done. by rewrite Hdepth. }
    destruct (reachable_consistent self w Hw) as (_ & Hkeys & _).
    assert (size (responses (st w)) = 5 + length more) as Hsize.
    { rewrite (size_of_keys _ _ Hkeys). exact Hdepthw. }
    destruct (submit_effect self c r w) as [shown Hs].
    unfold again, w', after. rewrite Hs. clear Hs.
    set (s := recorded _ _ _).
    assert (length (explored_depths s) = 6 + length more) as Hsix.
    { unfold s. cbn. rewrite length_app, Hdepthw. cbn. lia. }
    rewrite Hsix. cbn [Nat.add Nat.ltb Nat.leb st calls].
    cbn [responses explored_depths essay_draft set_essay_draft].
    split; [|done]. unfold s. cbn. by rewrite Hsize.
Qed.

Lemma fifth_submission_synthesizes_witness :
  let w5 := submit_all numbering five_reflections (fresh "session") in
  length five_reflections = 5
  ∧ Forall (λ text, Py.truthy text = true) five_reflections
  ∧ current_phase (st w5) = "initial_exploration"
  ∧ is_Some (essay_draft (st w5)).
Proof.
  assert (Forall (λ text, Py.truthy text = true) five_reflections) as Htexts.
  { repeat constructor. }
  split; [reflexivity|]. split; [exact Htexts|].
  pose proof (fifth_submission_synthesizes numbering "session"
                five_reflections eq_refl Htexts) as H.
  split; [exact (proj1 H)|exact (proj1 (proj2 H))].
Defined.

(** C1 as stated fails: after five submissions the phase is not [complete],
    and a sixth submission stores its text, appends a sixth insight and
    replaces the essay by a newly synthesized one. *)
Lemma sixth_submission_changes_the_session :
  let w5 := submit_all numbering five_reflections (fresh "session") in
  let w6 := after (submitResponse numbering "One more thought.") w5 in
  current_phase (st w5) = "initial_exploration"
  ∧ essay_draft (st w5) = Some "answer 9"
  ∧ length (explored_depths (st w5)) = 5
  ∧ responses (st w6) !! 5 = Some "One more thought."
  ∧ length (explored_depths (st w6)) = 6
  ∧ length (calls w6) = length (calls w5) + 2
  ∧ essay_draft (st w6) = Some "answer 11".
Proof. by vm_compute. Qed.

(** ** The question generator *)

(** C4. The context handed to the question generator never reaches the
    service: with any context the generator does exactly what it does
    without one, and the one request it issues is the request built from the
    unchanged system prompt. *)
Theorem context_never_reaches_the_service self context w :
  _generate_compassionate_question self (Some context) w
  = _generate_compassionate_question self None w
  ∧ calls (after (_generate_compassionate_question self (Some context)) w)
    = calls w ++ [question_request system_prompt]
  ∧ calls (after (_generate_compassionate_question self None) w)
    = calls w ++ [question_request system_prompt].
Proof.
  assert (_generate_compassionate_question self (Some context) w
          = _generate_compassionate_question self None w) as Hsame.
  { unfold _generate_compassionate_question, try_except, mbind, M_bind, format.
    by rewrite !format_system_prompt. }
  split; [exact Hsame|]. unfold after. rewrite Hsame.
  destruct (question_spec self None w) as (shown & Hq & _).
  by rewrite Hq.
Qed.

(** C2, as the code has it. In a reachable world, fresh or not, [start]
    returns normally, issues one request for a question and stores the
    generator's result in [current_question]: the service's text stripped, or
    the fixed fallback question when the call fails. The stored question is
    empty exactly when the service answered with blank text. The phase is
    [initial_exploration] afterwards, and responses, insights and essay are
    untouched. *)
Theorem start_asks_for_a_question self w :
  reachable self w →
  let answer :=
    groq_client self (length (calls w)) (question_request system_prompt) in
  let w' := after (start self) w in
  value_of (start self w) = Some tt
  ∧ calls w' = calls w ++ [question_request system_prompt]
  ∧ current_question (st w') = Some (question_of answer)
  ∧ (question_of answer = EmptyString ↔ blank_answer answer = true)
  ∧ current_phase (st w') = "initial_exploration"
  ∧ responses (st w') = responses (st w)
  ∧ explored_depths (st w') = explored_depths (st w)
  ∧ essay_draft (st w') = essay_draft (st w).
Proof.
  intros Hw answer w'.
  destruct (reachable_consistent self w Hw) as (Hphase & _).
  destruct (start_effect self w Hphase) as [shown Hs].
  unfold w', after. rewrite Hs. cbn.
  repeat split; try done.
  - destruct answer as [e|c]; [done|]. cbn. by rewrite strip_empty.
  - destruct answer as [e|c]; [done|]. cbn. by rewrite strip_empty.
Qed.

Lemma start_asks_for_a_question_witness :
  let w' := after (start offline) (fresh "session") in
  reachable offline (fresh "session")
  ∧ current_question (st w') = Some fallback_question
  ∧ current_phase (st w') = "initial_exploration".
Proof.
  pose proof (start_asks_for_a_question offline (fresh "session")
                (reachable_fresh offline "session")) as H.
  split; [apply reachable_fresh|].
  split; [exact (proj1 (proj2 (proj2 H)))|].
  exact (proj1 (proj2 (proj2 (proj2 (proj2 H))))).
Defined.

(** C2 as stated fails on each count: on a fresh session [start] can leave
    an empty question, it leaves the phase at [initial_exploration], and a
    second [start] replaces the question that is already there. *)
Lemma start_is_not_as_specified :
  let blank := after (start (always spaces)) (fresh "session") in
  let once := after (start numbering) (fresh "session") in
  let twice := after (start numbering) once in
  current_question (st blank) = Some EmptyString
  ∧ current_phase (st blank) = "initial_exploration"
  ∧ current_phase (st blank) ≠ "exploring"
  ∧ current_question (st once) = Some "answer 0"
  ∧ current_question (st twice) = Some "answer 1".
Proof. by vm_compute. Qed.

(** ** Submissions *)

(** C5, as the code has it. Submitting the empty string changes nothing at
    all: the store, the requests issued and the page are as before. Any
    non-empty text is accepted, a blank one like any other: it is stored
    under the next index and one insight record is appended, with the phase
    left as it was. *)
Theorem only_the_empty_text_is_rejected self w :
  submitResponse self EmptyString w = Returns tt w
  ∧ ∀ c r,
      let w' := after (submitResponse self (String c r)) w in
      responses (st w')
      = <[size (responses (st w)) := String c r]> (responses (st w))
      ∧ length (explored_depths (st w')) = S (length (explored_depths (st w)))
      ∧ current_phase (st w') = current_phase (st w).
Proof.
  split; [reflexivity|]. intros c r w'.
  split; [|split; [apply submit_depth|]];
    destruct (submit_effect self c r w) as [shown Hs];
    unfold w', after; rewrite Hs; by destruct (_ <? 5).
Qed.

(** C5 as stated fails: three spaces are accepted as a response. *)
Lemma blank_text_is_accepted :
  let w := fresh "session" in
  let w' := after (submitResponse offline "   ") w in
  size (responses (st w)) = 0
  ∧ explored_depths (st w) = []
  ∧ responses (st w') !! 0 = Some "   "
  ∧ explored_depths (st w') = [fallback_analysis].
Proof. by vm_compute. Qed.

(** The submission body alone, lines 194-217: when it brings the number of
    insights to five, the essay is synthesized and [current_question] stays
    as the body found it; in any case the responses stored before keep their
    indices and the insights recorded before stay in front of the new one.
    The body asks for a question exactly when the number of insights is
    below five afterwards. *)
Lemma submission_frame self w c r :
  reachable self w →
  let w' := after (submitResponse self (String c r)) w in
  (length (explored_depths (st w)) = 4 →
     current_question (st w') = current_question (st w)
     ∧ is_Some (essay_draft (st w')))
  ∧ (∀ k, is_Some (responses (st w) !! k) →
       responses (st w') !! k = responses (st w) !! k)
  ∧ take (length (explored_depths (st w))) (explored_depths (st w'))
    = explored_depths (st w)
  ∧ ∃ req,
      calls w' = calls w ++ [analysis_request (String c r); req]
      ∧ (req = question_request system_prompt
         ↔ length (explored_depths (st w')) < 5).
Proof.
  intros Hw w'.
  destruct (submit_effect self c r w) as [shown Hs].
  unfold w', after. rewrite Hs. clear Hs.
  set (s := recorded _ _ _).
  assert (length (explored_depths s) = S (length (explored_depths (st w))))
    as Hlen by (unfold s; cbn; rewrite length_app; cbn; lia).
  assert (∀ k, is_Some (responses (st w) !! k) →
            responses s !! k = responses (st w) !! k) as Hkept.
  { destruct (reachable_consistent self w Hw) as (_ & Hkeys & _).
    intros k Hk. apply Hkeys in Hk. rewrite <- (size_of_keys _ _ Hkeys) in Hk.
    unfold s. cbn. rewrite lookup_insert_ne; [done|lia]. }
  assert (take (length (explored_depths (st w))) (explored_depths s)
          = explored_depths (st w)) as Hfront.
  { unfold s. cbn. by rewrite take_app_length. }
  destruct (length (explored_depths s) <? 5) eqn:Hdepth; cbn [st calls].
  - apply Nat.ltb_lt in Hdepth. split; [intros; lia|].
    split; [exact Hkept|]. split; [exact Hfront|].
    eexists. by split.
  - apply Nat.ltb_ge in Hdepth. split; [intros _; split; [done|by eexists]|].
    split; [exact Hkept|]. split; [exact Hfront|].
    eexists. split; [done|]. cbn [explored_depths set_essay_draft].
    split; [discriminate|lia].
Qed.

(** ** The analyzer and the synthesizer *)

(** C6, as the code has it. The analyzer always returns a value and never
    raises. The fallback record has exactly the four required fields, each a
    list, and it is what comes back when the call fails or the payload is not
    JSON. A payload that parses is returned as it was parsed, so the result
    has the four fields exactly when the fallback was used or the service's
    own JSON has them. *)
Theorem analysis_is_as_complete_as_the_payload self response w :
  let answer :=
    groq_client self (length (calls w)) (analysis_request response) in
  value_of (_analyze_response_depth self response w) = Some (analysis_of answer)
  ∧ complete_record fallback_analysis = true
  ∧ (complete_record (analysis_of answer) = true
     ↔ match answer with
       | Fails _ => True
       | Answers c =>
           match loads c with
           | Some v => complete_record v = true
           | None => True
           end
       end).
Proof.
  intros answer.
  destruct (analysis_spec self response w) as [shown Ha].
  rewrite Ha. split; [done|]. split; [done|].
  fold answer. destruct answer as [e|[content [v|]]]; by cbn.
Qed.

(** C6 as stated fails: an empty JSON object from the service is returned
    as the insight record, with none of the four fields. *)
Lemma empty_object_is_returned :
  value_of (_analyze_response_depth (always empty_object)
              "I left home at nineteen." (fresh "session"))
  = Some (JDict [])
  ∧ complete_record (JDict []) = false.
Proof. by vm_compute. Qed.

(** C7, as the code has it. When the call fails, or its payload is not
    JSON, the analyzer returns the fixed fallback record, the same in both
    cases. A payload that parses is not a failure, whatever fields it has or
    lacks: the parsed value is returned as it is. *)
Theorem fallback_on_failure_or_bad_json self response w :
  let answer :=
    groq_client self (length (calls w)) (analysis_request response) in
  ((∃ e, answer = Fails e) ∨ (∃ c, answer = Answers c ∧ loads c = None) →
     value_of (_analyze_response_depth self response w)
     = Some fallback_analysis)
  ∧ (∀ c v, answer = Answers c → loads c = Some v →
       value_of (_analyze_response_depth self response w) = Some v).
Proof.
  intros answer.
  destruct (analysis_spec self response w) as [shown Ha].
  rewrite Ha. fold answer. cbn [value_of]. split.
  - intros [[e ->]|(c & -> & Hc)]; cbn; [done|]. by rewrite Hc.
  - intros c v -> Hv. cbn. by rewrite Hv.
Qed.

Lemma fallback_on_failure_or_bad_json_witness :
  groq_client offline 0 (analysis_request "I left home at nineteen.")
  = Fails "Connection error."
  ∧ value_of (_analyze_response_depth offline "I left home at nineteen."
                (fresh "session"))
    = Some fallback_analysis.
Proof.
  split; [reflexivity|].
  apply (fallback_on_failure_or_bad_json offline "I left home at nineteen."
           (fresh "session")).
  left. exists "Connection error.". reflexivity.
Defined.

(** C7 as stated fails: JSON with one of the four fields only is returned
    as it is, not replaced by the fallback record. *)
Lemma partial_record_is_returned :
  value_of (_analyze_response_depth (always one_field_object)
              "I left home at nineteen." (fresh "session"))
  = Some one_field
  ∧ one_field ≠ fallback_analysis
  ∧ complete_record one_field = false.
Proof. by vm_compute. Qed.

(** C9, as the code has it. The synthesizer always returns a text and never
    raises. When the call fails the text is the fixed fallback essay, which
    is not empty; when the service answers, it is the answer stripped, which
    is empty exactly when the answer is blank. So in a session whose service
    never answers with blank text, no reachable world holds an empty
    essay. *)
Theorem essay_is_empty_only_for_a_blank_answer self :
  (∀ insights w,
     let answer :=
       groq_client self (length (calls w))
         (essay_request (essay_prompt_for insights)) in
     value_of (_generate_intimate_essay self insights w) = Some (essay_of answer)
     ∧ match answer with
       | Fails _ => essay_of answer = fallback_essay
       | Answers c => essay_of answer = Py.strip (text c)
       end
     ∧ (essay_of answer = EmptyString ↔ blank_answer answer = true))
  ∧ fallback_essay ≠ EmptyString
  ∧ ((∀ k req, blank_answer (groq_client self k req) = false) →
     ∀ w, reachable self w → essay_draft (st w) ≠ Some EmptyString).
Proof.
  assert (∀ answer, essay_of answer = EmptyString ↔ blank_answer answer = true)
    as Hblank.
  { intros [e|c]; [done|]. cbn. apply strip_empty. }
  split; [|split; [done|]].
  - intros insights w answer.
    destruct (essay_spec self insights w) as [shown He].
    rewrite He. fold answer. split; [done|]. split; [by destruct answer|].
    apply Hblank.
  - intros Hnever w Hw Hempty.
    destruct (essay_from_service_reachable self w Hw) as [Hnone|(k & req & He)];
      [congruence|].
    rewrite He in Hempty. injection Hempty as Hempty.
    apply Hblank in Hempty. by rewrite Hnever in Hempty.
Qed.

Lemma essay_is_empty_only_for_a_blank_answer_witness :
  let w := submit_all offline five_reflections (fresh "session") in
  (∀ k req, blank_answer (groq_client offline k req) = false)
  ∧ reachable offline w
  ∧ essay_draft (st w) ≠ Some EmptyString.
Proof.
  assert (∀ k req, blank_answer (groq_client offline k req) = false) as Hnever.
  { intros k req. reflexivity. }
  assert (reachable offline
            (submit_all offline five_reflections (fresh "session"))) as Hw.
  { apply submit_all_reachable, reachable_fresh. }
  split; [exact Hnever|]. split; [exact Hw|].
  exact (proj2 (proj2 (essay_is_empty_only_for_a_blank_answer offline))
           Hnever _ Hw).
Defined.

(** C9 as stated fails: when the service answers the synthesis with blank
    text, the synthesizer returns the empty string, and the session that made
    five submissions holds an empty essay. *)
Lemma blank_answer_gives_an_empty_essay :
  let w := submit_all (always spaces) five_reflections (fresh "session") in
  value_of (_generate_intimate_essay (always spaces) [fallback_analysis]
              (fresh "session"))
  = Some EmptyString
  ∧ length (explored_depths (st w)) = 5
  ∧ essay_draft (st w) = Some EmptyString.
Proof. by vm_compute. Qed.

(** * Further properties of the code *)

(** ** The generators, exactly *)

Section Exactly.

Variable self : EssayTherapyCompanion.

Lemma question_exact context w :
  let req := question_request system_prompt in
  let answer := groq_client self (length (calls w)) req in
  _generate_compassionate_question self context w
  = Returns (question_of answer)
      (World (st w) (calls w ++ [req]) (page w ++ question_notice answer)).
Proof.
  intros req answer.
  unfold _generate_compassionate_question, try_except, mbind, M_bind, format.
  rewrite format_system_prompt. cbn [lift]. unfold mret, M_ret, create.
  fold req. fold answer. destruct answer as [e|c]; [done|].
  cbn [question_notice]. by rewrite app_nil_r.
Qed.

Lemma analysis_exact response w :
  let req := analysis_request response in
  let answer := groq_client self (length (calls w)) req in
  _analyze_response_depth self response w
  = Returns (analysis_of answer)
      (World (st w) (calls w ++ [req]) (page w ++ analysis_notice answer)).
Proof.
  intros req answer.
  unfold _analyze_response_depth, try_except, mbind, M_bind, create, json_loads.
  fold req. fold answer. destruct answer as [e|[content [v|]]]; [done| |done].
  cbn. by rewrite app_nil_r.
Qed.

Lemma essay_exact insights w :
  let req := essay_request (essay_prompt_for insights) in
  let answer := groq_client self (length (calls w)) req in
  _generate_intimate_essay self insights w
  = Returns (essay_of answer)
      (World (st w) (calls w ++ [req]) (page w ++ essay_notice answer)).
Proof.
  intros req answer.
  unfold _generate_intimate_essay, try_except, mbind, M_bind, format.
  rewrite format_essay_prompt. cbn [lift]. unfold mret, M_ret, create.
  fold req. fold answer. destruct answer as [e|c]; [done|].
  cbn [essay_notice]. by rewrite app_nil_r.
Qed.

Lemma start_exact w :
  current_phase (st w) = "initial_exploration" →
  let req := question_request system_prompt in
  let answer := groq_client self (length (calls w)) req in
  start self w
  = Returns tt
      (World (set_current_question (Some (question_of answer)) (st w))
             (calls w ++ [req]) (page w ++ question_notice answer)).
Proof.
  intros Hphase req answer. unfold start, mbind, M_bind, gets.
  rewrite Hphase. cbn [String.eqb Ascii.eqb Bool.eqb].
  by rewrite question_exact.
Qed.

Lemma submit_exact c r w :
  let user_response := String c r in
  let asked := analysis_request user_response in
  let a1 := groq_client self (length (calls w)) asked in
  let s := recorded user_response (analysis_of a1) (st w) in
  let next := S (length (calls w)) in
  submitResponse self user_response w
  = Returns tt
      (if length (explored_depths s) <? 5 then
         let req := question_request system_prompt in
         let a2 := groq_client self next req in
         World (set_current_question (Some (question_of a2)) s)
               (calls w ++ [asked; req])
               (page w ++ analysis_notice a1 ++ question_notice a2)
       else
         let req := essay_request (essay_prompt_for (explored_depths s)) in
         let a2 := groq_client self next req in
         World (set_essay_draft (Some (essay_of a2)) s)
               (calls w ++ [asked; req])
               (page w ++ analysis_notice a1 ++ essay_notice a2
                ++ [st_success "Your Personal Narrative Emerges...";
                    st_write (Some (essay_of a2))])).
Proof.
  intros user_response asked a1 s next.
  unfold submitResponse, user_response. cbn [Py.truthy].
  unfold mbind, M_bind, gets, modify. fold user_response.
  rewrite analysis_exact. cbn [calls with_st st page]. fold asked. fold a1.
  assert (length (calls w ++ [asked]) = next) as Hnext.
  { rewrite length_app. cbn. unfold next. lia. }
  match goal with
  | |- context [if ?b then _ else _] =>
      change b with (length (explored_depths s) <? 5)
  end.
  destruct (length (explored_depths s) <? 5).
  - rewrite question_exact. cbn [calls with_st st page].
    rewrite Hnext, <- !app_assoc. reflexivity.
  - cbn beta. rewrite essay_exact.
    unfold show, with_st. cbn [calls st page essay_draft set_essay_draft].
    rewrite Hnext, <- !app_assoc. reflexivity.
Qed.

Lemma script_exact r w :
  current_phase (st w) = "initial_exploration" →
  let req := question_request system_prompt in
  let answer := groq_client self (length (calls w)) req in
  interactive_exploration self r w
  = (if button r then submitResponse self (user_input r) else mret tt)
      (World (set_current_question (Some (question_of answer)) (st w))
             (calls w ++ [req])
             (page w ++ [st_title "MiM Essay Personal Journey Companion"]
              ++ question_notice answer ++ [st_question (question_of answer)])).
Proof.
  intros Hphase req answer.
  unfold interactive_exploration, mbind, M_bind, show.
  rewrite start_exact by done. cbn [st calls page].
  unfold getattr_current_question. cbn [st current_question set_current_question lift].
  unfold mret, M_ret. cbn [st calls page]. fold req. fold answer.
  by rewrite <- !app_assoc.
Qed.

End Exactly.

(** ** Whole runs of the script *)

Section Runs.

Variable self : EssayTherapyCompanion.

Lemma submit_returns user_response w :
  value_of (submitResponse self user_response w) = Some tt.
Proof.
  destruct user_response as [|c r]; [done|]. by rewrite submit_exact.
Qed.

Lemma later_reachable w w' :
  reachable self w → later self w w' → reachable self w'.
Proof.
  intros Hw. induction 1;
    auto using reachable_start, reachable_submit, reachable_script.
Qed.

Lemma main_later r w :
  match main self r (Some w) with
  | Returns _ w' => w'
  | Raises _ w' => w'
  end = after (interactive_exploration self r) w.
Proof. cbn [main _initialize_conversation_state]. by rewrite world_eta. Qed.

Lemma accepted_cons r runs :
  accepted (r :: runs)
  = (if clicked r then [user_input r] else []) ++ accepted runs.
Proof. unfold accepted. cbn [List.filter]. by destruct (clicked r). Qed.

Lemma script_responses r w (l : list string) :
  current_phase (st w) = "initial_exploration" →
  (∀ k, responses (st w) !! k = l !! k) →
  ∀ k, responses (st (after (interactive_exploration self r) w)) !! k
       = (l ++ if clicked r then [user_input r] else []) !! k.
Proof.
  intros Hphase Hl k. unfold after. rewrite script_exact by done.
  unfold clicked. destruct (button r); cbn [andb];
    [|cbn; by rewrite app_nil_r].
  destruct (user_input r) as [|c s]; [cbn; by rewrite app_nil_r|].
  rewrite submit_exact. cbn [Py.truthy].
  assert (size (responses (st w)) = length l) as Hsize.
  { apply size_of_keys. intros i. by rewrite Hl, lookup_lt_is_Some. }
  assert (∀ x, <[size (responses (st w)) := x]> (responses (st w)) !! k
               = (l ++ [x]) !! k) as Hput.
  { intros x. rewrite Hsize. destruct (decide (k = length l)) as [->|Hk].
    - by rewrite lookup_insert_eq, list_lookup_middle.
    - rewrite lookup_insert_ne, Hl by done.
      destruct (decide (k < length l)); [by rewrite lookup_app_l|].
      rewrite !(proj2 (lookup_ge_None _ _)); [done| |lia].
      rewrite length_app. cbn. lia. }
  destruct (_ <? 5); cbn; apply Hput.
Qed.

Lemma session_responses runs w w' (l : list string) :
  reachable self w →
  (∀ k, responses (st w) !! k = l !! k) →
  session self runs (Some w) = Some w' →
  ∀ k, responses (st w') !! k = (l ++ accepted runs) !! k.
Proof.
  revert w l. induction runs as [|r runs IH]; intros w l Hw Hl Hrun.
  - injection Hrun as <-. intros k. unfold accepted. cbn. by rewrite app_nil_r.
  - cbn [session] in Hrun. rewrite main_later in Hrun.
    intros k. rewrite accepted_cons, app_assoc.
    apply (IH _ _ (reachable_script self w r Hw)); [|done].
    apply script_responses; [apply (reachable_consistent self w Hw)|done].
Qed.

Lemma session_stored runs w :
  session self runs None = Some w →
  ∀ k, responses (st w) !! k = accepted runs !! k.
Proof.
  intros Hrun. destruct runs as [|r runs]; [done|]. cbn [session main] in Hrun.
  change (World (_initialize_conversation_state (uuid4 r) None) [] [])
    with (fresh (uuid4 r)) in Hrun.
  intros k. rewrite accepted_cons.
  apply (session_responses runs
           (after (interactive_exploration self r) (fresh (uuid4 r))) w);
    [apply reachable_script, reachable_fresh| |exact Hrun].
  intros i.
  apply (script_responses r (fresh (uuid4 r)) []); [done|].
  intros j. cbn. by rewrite lookup_empty.
Qed.

Lemma session_stored_size runs w :
  session self runs None = Some w →
  size (responses (st w)) = length (accepted runs).
Proof.
  intros Hrun. apply size_of_keys. intros k.
  by rewrite (session_stored runs w Hrun), lookup_lt_is_Some.
Qed.

End Runs.

(** X1. The responses stored by a browser session are exactly the texts of
    the runs in which the button was clicked on a non-empty text, in the
    order of the runs: the N-th of them sits under index N-1, and nothing
    else is stored. *)
Theorem responses_are_the_accepted_inputs self runs w :
  session self runs None = Some w →
  (∀ k, responses (st w) !! k = accepted runs !! k)
  ∧ size (responses (st w)) = length (accepted runs).
Proof.
  intros Hrun. split.
  - by apply (session_stored self).
  - by apply (session_stored_size self).
Qed.

Lemma browsing_ends :
  session numbering browsing None = Some browsed.
Proof. vm_compute. reflexivity. Qed.

Lemma responses_are_the_accepted_inputs_witness :
  session numbering browsing None = Some browsed
  ∧ accepted browsing = ["I left home at nineteen."; "   "]
  ∧ responses (st browsed) !! 1 = Some "   "
  ∧ size (responses (st browsed)) = 2.
Proof.
  split; [exact browsing_ends|]. split; [reflexivity|].
  pose proof (responses_are_the_accepted_inputs numbering browsing browsed
                browsing_ends) as [Hall Hsize].
  split; [exact (Hall 1)|exact Hsize].
Defined.

(** X2. A run of the script ends normally exactly when the phase is
    [initial_exploration] or a question is already stored; otherwise it
    raises when it reads [current_question], having changed nothing in the
    store and issued no request. In a reachable world it always ends
    normally. *)
Theorem script_returns_unless_no_question self r w :
  (value_of (interactive_exploration self r w) = Some tt
   ↔ current_phase (st w) = "initial_exploration"
     ∨ is_Some (current_question (st w)))
  ∧ (value_of (interactive_exploration self r w) = None →
       st (after (interactive_exploration self r) w) = st w
       ∧ calls (after (interactive_exploration self r) w) = calls w)
  ∧ (reachable self w →
       value_of (interactive_exploration self r w) = Some tt).
Proof.
  assert (current_phase (st w) = "initial_exploration" →
          value_of (interactive_exploration self r w) = Some tt) as Hinitial.
  { intros Hphase. rewrite script_exact by done.
    destruct (button r); [apply submit_returns|done]. }
  destruct (decide (current_phase (st w) = "initial_exploration"))
    as [Hphase|Hphase].
  { rewrite (Hinitial Hphase). repeat split; auto; done. }
  assert (interactive_exploration self r w
          = match current_question (st w) with
            | Some q =>
                (if button r then submitResponse self (user_input r)
                 else mret tt)
                  (World (st w) (calls w)
                     (page w ++ [st_title "MiM Essay Personal Journey Companion";
                                 st_question q]))
            | None =>
                Raises "AttributeError: current_question"
                  (World (st w) (calls w)
                     (page w ++ [st_title "MiM Essay Personal Journey Companion"]))
            end) as Hrun.
  { unfold interactive_exploration, mbind, M_bind, show.
    rewrite start_elsewhere by done.
    unfold getattr_current_question. cbn [st calls page].
    destruct (current_question (st w)) as [q|]; cbn [lift]; [|done].
    unfold mret, M_ret. cbn [st calls page]. by rewrite <- app_assoc. }
  unfold after. rewrite Hrun.
  destruct (current_question (st w)) as [q|].
  - assert (value_of ((if button r then submitResponse self (user_input r)
                       else mret tt)
                        (World (st w) (calls w)
                           (page w ++ [st_title "MiM Essay Personal Journey Companion";
                                       st_question q]))) = Some tt) as ->.
    { destruct (button r); [apply submit_returns|done]. }
    split; [split; [by right; eexists|done]|]. split; [done|].
    intros Hw. by destruct Hphase, (reachable_consistent self w Hw).
  - cbn [value_of st calls]. split; [split; [done|]|].
    + intros [?|[? ?]]; done.
    + split; [done|].
      intros Hw. by destruct Hphase, (reachable_consistent self w Hw).
Qed.

Lemma script_returns_unless_no_question_witness :
  reachable offline (fresh "session")
  ∧ value_of (interactive_exploration offline
                (ScriptRun "session" "I left home at nineteen." true)
                (fresh "session")) = Some tt.
Proof.
  split; [apply reachable_fresh|].
  apply (script_returns_unless_no_question offline), reachable_fresh.
Defined.

(** X3. What is stored in [current_question] is never read back: in a
    reachable world a run does exactly the same whatever question the run
    before left in the store. In particular the question generated with
    context after a submission is replaced before it is ever shown. *)
Theorem stored_question_is_never_read self r w q :
  reachable self w →
  interactive_exploration self r (with_st (set_current_question q) w)
  = interactive_exploration self r w.
Proof.
  intros Hw. destruct (reachable_consistent self w Hw) as (Hphase & _).
  by rewrite !script_exact.
Qed.

Lemma stored_question_is_never_read_witness :
  let w := after (submitResponse numbering "I left home at nineteen.")
             (fresh "session") in
  let r := ScriptRun "session" EmptyString false in
  reachable numbering w
  ∧ current_question (st w) = Some "answer 1"
  ∧ interactive_exploration numbering r (with_st (set_current_question None) w)
    = interactive_exploration numbering r w.
Proof.
  assert (reachable numbering
            (after (submitResponse numbering "I left home at nineteen.")
               (fresh "session"))) as Hw.
  { apply reachable_submit, reachable_fresh. }
  split; [exact Hw|]. split; [reflexivity|].
  exact (stored_question_is_never_read numbering _ _ None Hw).
Defined.

(** X4. In a reachable world a run of the script issues one request for a
    question and nothing more, unless the button was clicked on a non-empty
    text; then it goes on to issue the analysis request for that text and a
    third request: for a question while fewer than five insights are
    stored afterwards, for the essay over all stored insights otherwise. *)
Theorem requests_of_a_run self r w :
  reachable self w →
  let w' := after (interactive_exploration self r) w in
  issued (interactive_exploration self r) w
  = question_request system_prompt
    :: if clicked r then
         [ analysis_request (user_input r);
           if length (explored_depths (st w')) <? 5
           then question_request system_prompt
           else essay_request (essay_prompt_for (explored_depths (st w'))) ]
       else [].
Proof.
  intros Hw. destruct (reachable_consistent self w Hw) as (Hphase & _).
  cbn zeta. unfold issued, after, clicked. rewrite script_exact by done.
  destruct (button r); cbn [andb];
    [|cbn [mret M_ret calls]; by rewrite drop_app_length].
  destruct (user_input r) as [|c s];
    [cbn [submitResponse Py.truthy mret M_ret calls]; by rewrite drop_app_length|].
  rewrite submit_exact. cbn [Py.truthy calls st].
  destruct (_ <? 5) eqn:Hdepth; cbn [calls st explored_depths
    set_current_question set_essay_draft]; rewrite Hdepth;
    by rewrite <- app_assoc, drop_app_length.
Qed.

Lemma requests_of_a_run_witness :
  let r := ScriptRun "session" "I left home at nineteen." true in
  reachable offline (fresh "session")
  ∧ issued (interactive_exploration offline r) (fresh "session")
    = [ question_request system_prompt;
        analysis_request "I left home at nineteen.";
        question_request system_prompt ].
Proof.
  split; [apply reachable_fresh|].
  exact (requests_of_a_run offline
           (ScriptRun "session" "I left home at nineteen." true)
           (fresh "session") (reachable_fresh offline "session")).
Defined.

(** ** Whole sessions *)

Section Browsing.

Variable self : EssayTherapyCompanion.

Lemma session_from runs w :
  session self runs (Some w) = Some (rerun_all self runs w).
Proof.
  revert w. induction runs as [|r runs IH]; intros w; [done|].
  cbn [session]. by rewrite main_later, IH.
Qed.

Lemma session_first r runs :
  session self (r :: runs) None
  = Some (rerun_all self (r :: runs) (fresh (uuid4 r))).
Proof. cbn [session main]. rewrite session_from. reflexivity. Qed.

Lemma rerun_all_reachable runs w :
  reachable self w → reachable self (rerun_all self runs w).
Proof.
  revert w. induction runs as [|r runs IH]; intros w Hw; [done|].
  apply IH. by apply reachable_script.
Qed.

Lemma script_frame r w :
  current_phase (st w) = "initial_exploration" →
  let w' := after (interactive_exploration self r) w in
  conversation_id (st w') = conversation_id (st w)
  ∧ length (calls w') = length (calls w) + (if clicked r then 3 else 1).
Proof.
  intros Hphase. cbn zeta. unfold after, clicked.
  rewrite script_exact by done.
  destruct (button r); cbn [andb];
    [|cbn [mret M_ret st calls]; by rewrite length_app].
  destruct (user_input r) as [|c s];
    [cbn [submitResponse Py.truthy mret M_ret st calls]; by rewrite length_app|].
  rewrite submit_exact. cbn [Py.truthy].
  destruct (_ <? 5); cbn [st calls]; (split; [done|]);
    rewrite !length_app; cbn; lia.
Qed.

Lemma rerun_all_frame runs w :
  reachable self w →
  conversation_id (st (rerun_all self runs w)) = conversation_id (st w)
  ∧ length (calls (rerun_all self runs w))
    = length (calls w) + length runs + 2 * length (accepted runs).
Proof.
  revert w. induction runs as [|r runs IH]; intros w Hw.
  - cbn. split; [done|lia].
  - destruct (reachable_consistent self w Hw) as (Hphase & _).
    destruct (script_frame r w Hphase) as [Hid Hcalls].
    destruct (IH _ (reachable_script self w r Hw)) as [Hid' Hcalls'].
    change (rerun_all self (r :: runs) w)
      with (rerun_all self runs (after (interactive_exploration self r) w)).
    rewrite Hid', Hcalls', Hid, Hcalls, accepted_cons, length_app.
    cbn [length]. split; [done|]. destruct (clicked r); cbn [length]; lia.
Qed.

End Browsing.

(** X5. The conversation id of a browser session is the identifier drawn in
    its first run; the identifiers later runs would draw are never used, and
    nothing that happens in the session changes the id. *)
Theorem conversation_id_is_drawn_once self r runs w :
  session self (r :: runs) None = Some w →
  conversation_id (st w) = uuid4 r.
Proof.
  rewrite session_first. intros [= <-].
  exact (proj1 (rerun_all_frame self (r :: runs) (fresh (uuid4 r))
                  (reachable_fresh self (uuid4 r)))).
Qed.

Lemma conversation_id_is_drawn_once_witness :
  session numbering browsing None = Some browsed
  ∧ conversation_id (st browsed) = "first".
Proof.
  split; [exact browsing_ends|].
  exact (conversation_id_is_drawn_once numbering _ _ browsed browsing_ends).
Defined.

(** X6. A browser session issues one request per run and two more for every
    stored response: the number of requests made is the number of runs plus
    twice the number of responses. *)
Theorem requests_of_a_session self runs w :
  session self runs None = Some w →
  length (calls w) = length runs + 2 * length (accepted runs)
  ∧ length (calls w) = length runs + 2 * size (responses (st w)).
Proof.
  intros Hrun.
  assert (length (calls w) = length runs + 2 * length (accepted runs)) as Hn.
  { destruct runs as [|r runs]; [done|].
    rewrite session_first in Hrun. injection Hrun as <-.
    exact (proj2 (rerun_all_frame self (r :: runs) (fresh (uuid4 r))
                    (reachable_fresh self (uuid4 r)))). }
  split; [exact Hn|]. by rewrite Hn, (session_stored_size self runs w Hrun).
Qed.

Lemma requests_of_a_session_witness :
  session numbering browsing None = Some browsed
  ∧ length browsing = 4
  ∧ length (accepted browsing) = 2
  ∧ length (calls browsed) = 8.
Proof.
  split; [exact browsing_ends|]. split; [reflexivity|]. split; [reflexivity|].
  exact (proj1 (requests_of_a_session numbering browsing browsed browsing_ends)).
Defined.

(** ** Nothing is lost *)

Section Growth.

Variable self : EssayTherapyCompanion.

Lemma grown_refl w : grown w w.
Proof. by repeat split. Qed.

Lemma grown_trans w1 w2 w3 : grown w1 w2 → grown w2 w3 → grown w1 w3.
Proof.
  intros (Hd & Hr & He & Hc & Hp) (Hd' & Hr' & He' & Hc' & Hp').
  repeat split; try (by etrans); auto.
Qed.

Lemma start_grown w :
  current_phase (st w) = "initial_exploration" →
  grown w (after (start self) w).
Proof.
  intros Hphase. unfold after. rewrite start_exact by done.
  repeat split; cbn [st calls page]; try done; by apply prefix_app_r.
Qed.

Lemma submit_grown user_response w :
  consistent (st w) → grown w (after (submitResponse self user_response) w).
Proof.
  intros (_ & Hkeys & _).
  destruct user_response as [|c r]; [apply grown_refl|].
  unfold after. rewrite submit_exact.
  assert (responses (st w) !! size (responses (st w)) = None) as Hfree.
  { apply eq_None_not_Some. rewrite Hkeys, (size_of_keys _ _ Hkeys). lia. }
  destruct (_ <? 5); repeat split; cbn [st calls page]; cbn;
    try (by apply prefix_app_r); try (by apply insert_subseteq);
    try done; by eexists.
Qed.

Lemma script_grown r w :
  consistent (st w) → grown w (after (interactive_exploration self r) w).
Proof.
  intros Hw. pose proof Hw as (Hphase & _).
  unfold after. rewrite script_exact by done.
  set (w1 := World _ _ _).
  assert (grown w w1) as Hfirst.
  { repeat split; cbn [w1 st calls page]; try done; by apply prefix_app_r. }
  destruct (button r); [|exact Hfirst].
  apply (grown_trans _ w1); [exact Hfirst|].
  by apply (submit_grown (user_input r) w1).
Qed.

End Growth.

(** X7. Nothing recorded is ever lost or changed. From a reachable world to
    any later world of the session, the insights stored stay in front of the
    newer ones, every stored response keeps its index and its text, an essay
    once set stays set, and the requests issued and the page calls made stay
    in front of the later ones. *)
Theorem history_only_grows self w w' :
  reachable self w →
  later self w w' →
  explored_depths (st w) `prefix_of` explored_depths (st w')
  ∧ responses (st w) ⊆ responses (st w')
  ∧ (is_Some (essay_draft (st w)) → is_Some (essay_draft (st w')))
  ∧ calls w `prefix_of` calls w'
  ∧ page w `prefix_of` page w'.
Proof.
  intros Hw Hlater. change (grown w w').
  induction Hlater as [w|w w' Hl IH|w w' text Hl IH|w w' r Hl IH].
  - apply grown_refl.
  - apply (grown_trans _ w'); [by apply IH|].
    apply start_grown, (reachable_consistent self w'), (later_reachable self w);
      done.
  - apply (grown_trans _ w'); [by apply IH|].
    apply submit_grown, (reachable_consistent self w'), (later_reachable self w);
      done.
  - apply (grown_trans _ w'); [by apply IH|].
    apply script_grown, (reachable_consistent self w'), (later_reachable self w);
      done.
Qed.

Lemma history_only_grows_witness :
  let w := after (submitResponse numbering "I left home at nineteen.")
             (fresh "session") in
  let w' := after (interactive_exploration numbering
                     (ScriptRun "session" "I failed my first exam." true)) w in
  reachable numbering w
  ∧ later numbering w w'
  ∧ responses (st w) ⊆ responses (st w').
Proof.
  assert (reachable numbering
            (after (submitResponse numbering "I left home at nineteen.")
               (fresh "session"))) as Hw.
  { apply reachable_submit, reachable_fresh. }
  assert (later numbering
            (after (submitResponse numbering "I left home at nineteen.")
               (fresh "session"))
            (after (interactive_exploration numbering
                      (ScriptRun "session" "I failed my first exam." true))
               (after (submitResponse numbering "I left home at nineteen.")
                  (fresh "session")))) as Hl.
  { apply later_script, later_now. }
  split; [exact Hw|]. split; [exact Hl|].
  exact (proj1 (proj2 (history_only_grows numbering _ _ Hw Hl))).
Defined.

(** ** Where the stored values come from *)

Section Provenance.

Variable self : EssayTherapyCompanion.

(** Induction over the stores of the reachable worlds: a store is the fresh
    one, or comes from one by a new question, or by a recorded response
    followed by a new question (below five insights) or by an essay. *)
Lemma reachable_store_ind (I : session_state → Prop) :
  (∀ id, I (st (fresh id))) →
  (∀ s k, I s →
     I (set_current_question
          (Some (question_of (groq_client self k (question_request system_prompt))))
          s)) →
  (∀ s c r k, I s →
     let s' := recorded (String c r)
                 (analysis_of (groq_client self k (analysis_request (String c r))))
                 s in
     length (explored_depths s') < 5 →
     I (set_current_question
          (Some (question_of
                   (groq_client self (S k) (question_request system_prompt))))
          s')) →
  (∀ s c r k, I s →
     let s' := recorded (String c r)
                 (analysis_of (groq_client self k (analysis_request (String c r))))
                 s in
     5 ≤ length (explored_depths s') →
     I (set_essay_draft
          (Some (essay_of
                   (groq_client self (S k)
                      (essay_request (essay_prompt_for (explored_depths s'))))))
          s')) →
  ∀ w, reachable self w → I (st w).
Proof.
  intros Hfresh Hquestion Hnext Hessay.
  assert (∀ text w, I (st w) → I (st (after (submitResponse self text) w)))
    as Hsubmit.
  { intros [|c r] w Hw; [done|]. unfold after. rewrite submit_exact.
    destruct (_ <? 5) eqn:Hdepth; cbn [st].
    - apply Hnext; [done|]. by apply Nat.ltb_lt.
    - apply Hessay; [done|]. by apply Nat.ltb_ge. }
  induction 1 as [id|w Hw IH|w text Hw IH|w r Hw IH].
  - apply Hfresh.
  - destruct (reachable_consistent self w Hw) as (Hphase & _).
    unfold after. rewrite start_exact by done. by apply Hquestion.
  - by apply Hsubmit.
  - destruct (reachable_consistent self w Hw) as (Hphase & _).
    unfold after at 1. rewrite script_exact by done.
    set (w1 := World _ _ _).
    assert (I (st w1)) as Hw1 by by apply Hquestion.
    destruct (button r); [by apply Hsubmit|done].
Qed.

End Provenance.

(** X8. The stored insights are as complete as the service's answers: if
    every JSON value the service sends has exactly the four required fields,
    each a list, then so has every insight record in every reachable world,
    whichever calls fail or return text that is not JSON. *)
Theorem insights_are_complete_when_the_service_is self :
  (∀ k req c v,
     groq_client self k req = Answers c → loads c = Some v →
     complete_record v = true) →
  ∀ w, reachable self w →
  Forall (λ v, complete_record v = true) (explored_depths (st w)).
Proof.
  intros Hservice.
  assert (∀ k req, complete_record (analysis_of (groq_client self k req)) = true)
    as Hanalysis.
  { intros k req. destruct (groq_client self k req) as [e|c] eqn:Hr; [done|].
    cbn. destruct (loads c) as [v|] eqn:Hv; [|done]. by apply (Hservice k req c). }
  apply (reachable_store_ind self
           (λ s, Forall (λ v, complete_record v = true) (explored_depths s))).
  - intros id. constructor.
  - done.
  - intros s c r k Hs s' _. cbn. apply Forall_app. split; [done|].
    constructor; [apply Hanalysis|constructor].
  - intros s c r k Hs s' _. cbn. apply Forall_app. split; [done|].
    constructor; [apply Hanalysis|constructor].
Qed.

Lemma insights_are_complete_when_the_service_is_witness :
  let w := submit_all numbering five_reflections (fresh "session") in
  (∀ k req c v,
     groq_client numbering k req = Answers c → loads c = Some v →
     complete_record v = true)
  ∧ reachable numbering w
  ∧ Forall (λ v, complete_record v = true) (explored_depths (st w)).
Proof.
  assert (∀ k req c v,
            groq_client numbering k req = Answers c → loads c = Some v →
            complete_record v = true) as Hservice.
  { intros k req c v [= <-] [= <-]. reflexivity. }
  assert (reachable numbering
            (submit_all numbering five_reflections (fresh "session"))) as Hw.
  { apply submit_all_reachable, reachable_fresh. }
  split; [exact Hservice|]. split; [exact Hw|].
  exact (insights_are_complete_when_the_service_is numbering Hservice _ Hw).
Defined.

(** X9. With a service that fails on every call the conversation still goes
    its way on the literal fallbacks: in every reachable world the question
    stored, if any, is the fallback question, every insight is the fallback
    record, and the essay is the fallback essay from the fifth insight on
    and unset before. *)
Theorem failing_service_gives_the_fallbacks self :
  (∀ k req, failed (groq_client self k req) = true) →
  ∀ w, reachable self w →
  (∀ q, current_question (st w) = Some q → q = fallback_question)
  ∧ Forall (λ v, v = fallback_analysis) (explored_depths (st w))
  ∧ essay_draft (st w)
    = if 5 <=? length (explored_depths (st w)) then Some fallback_essay
      else None.
Proof.
  intros Hfails.
  assert (∀ k req, question_of (groq_client self k req) = fallback_question
                   ∧ analysis_of (groq_client self k req) = fallback_analysis
                   ∧ essay_of (groq_client self k req) = fallback_essay)
    as Hfallback.
  { intros k req. specialize (Hfails k req).
    by destruct (groq_client self k req). }
  apply (reachable_store_ind self
           (λ s, (∀ q, current_question s = Some q → q = fallback_question)
                 ∧ Forall (λ v, v = fallback_analysis) (explored_depths s)
                 ∧ essay_draft s
                   = if 5 <=? length (explored_depths s) then Some fallback_essay
                     else None)).
  - intros id. by repeat split.
  - intros s k (Hq & Hd & He). split; [|done].
    intros q [= <-]. apply Hfallback.
  - intros s c r k (Hq & Hd & He) s' Hdepth.
    destruct (Hfallback k (analysis_request (String c r))) as (_ & Ha & _).
    split; [intros q [= <-]; apply Hfallback|]. split.
    + cbn. rewrite Ha. apply Forall_app. split; [done|]. by repeat constructor.
    + cbn [essay_draft explored_depths set_current_question].
      rewrite (proj2 (Nat.leb_gt _ _) Hdepth).
      change (essay_draft s') with (essay_draft s). rewrite He.
      assert (length (explored_depths s') = S (length (explored_depths s)))
        as Hlen by (cbn; rewrite length_app; cbn; lia).
      rewrite (proj2 (Nat.leb_gt 5 (length (explored_depths s)))); [done|lia].
  - intros s c r k (Hq & Hd & He) s' Hdepth.
    destruct (Hfallback k (analysis_request (String c r))) as (_ & Ha & _).
    split; [exact Hq|]. split.
    + cbn. rewrite Ha. apply Forall_app. split; [done|]. by repeat constructor.
    + cbn [essay_draft explored_depths set_essay_draft].
      rewrite (proj2 (Nat.leb_le _ _) Hdepth). f_equal. apply Hfallback.
Qed.

Lemma failing_service_gives_the_fallbacks_witness :
  let w := submit_all offline five_reflections (fresh "session") in
  (∀ k req, failed (groq_client offline k req) = true)
  ∧ reachable offline w
  ∧ essay_draft (st w) = Some fallback_essay.
Proof.
  assert (∀ k req, failed (groq_client offline k req) = true) as Hfails.
  { intros k req. reflexivity. }
  assert (reachable offline
            (submit_all offline five_reflections (fresh "session"))) as Hw.
  { apply submit_all_reachable, reachable_fresh. }
  split; [exact Hfails|]. split; [exact Hw|].
  exact (proj2 (proj2 (failing_service_gives_the_fallbacks offline Hfails _ Hw))).
Defined.

(** ** Texts *)

Section Texts.

Lemma rstrip_cons c r :
  Py.rstrip (String c r)
  = match Py.rstrip r with
    | EmptyString => if Py.isspace c then EmptyString else String c EmptyString
    | String c' r' => String c (String c' r')
    end.
Proof. reflexivity. Qed.

Lemma rstrip_idem u : Py.rstrip (Py.rstrip u) = Py.rstrip u.
Proof.
  induction u as [|c r IH]; [done|]. rewrite rstrip_cons.
  destruct (Py.rstrip r) as [|c' r'] eqn:Hr.
  - destruct (Py.isspace c) eqn:Hc; [done|]. rewrite rstrip_cons. cbn. by rewrite Hc.
  - rewrite rstrip_cons. by rewrite IH.
Qed.

Lemma lstrip_rstrip u :
  Py.lstrip u = u → Py.lstrip (Py.rstrip u) = Py.rstrip u.
Proof.
  destruct u as [|c r]; [done|]. cbn [Py.lstrip].
  destruct (Py.isspace c) eqn:Hc.
  - intros Hr. assert (String.length (Py.lstrip r) ≤ String.length r) as Hle.
    { clear. induction r as [|c r IH]; cbn; [lia|].
      destruct (Py.isspace c); cbn; lia. }
    rewrite Hr in Hle. cbn in Hle. lia.
  - intros _. rewrite rstrip_cons.
    destruct (Py.rstrip r); rewrite ?Hc; cbn [Py.lstrip]; by rewrite Hc.
Qed.

Lemma lstrip_idem s : Py.lstrip (Py.lstrip s) = Py.lstrip s.
Proof.
  induction s as [|c r IH]; [done|]. cbn [Py.lstrip].
  destruct (Py.isspace c) eqn:Hc; [done|]. cbn [Py.lstrip]. by rewrite Hc.
Qed.

Lemma strip_stripped s :
  Py.lstrip (Py.strip s) = Py.strip s ∧ Py.rstrip (Py.strip s) = Py.strip s.
Proof.
  unfold Py.strip. split; [|apply rstrip_idem].
  apply lstrip_rstrip, lstrip_idem.
Qed.

Lemma append_length a b :
  String.length (a +:+ b) = String.length a + String.length b.
Proof. induction a as [|c a IH]; simpl; [done|]. by rewrite IH. Qed.

Lemma append_cancel_r a b s : a +:+ s = b +:+ s → a = b.
Proof.
  revert b. induction a as [|c a IH]; intros [|c' b] H; simpl in H.
  - done.
  - apply (f_equal String.length) in H. simpl in H.
    rewrite ?append_length in H. simpl in H. lia.
  - apply (f_equal String.length) in H. simpl in H.
    rewrite ?append_length in H. simpl in H. lia.
  - injection H as -> H. f_equal. by apply IH.
Qed.

Lemma essay_prompt_filled v :
  Py.format essay_prompt [("insights", v)]
  = Some (before_field essay_prompt +:+ v +:+ after_field essay_prompt).
Proof. vm_compute. reflexivity. Qed.

End Texts.

(** X10. The question generator never raises, whatever the service does.
    When the call fails it returns the literal fallback question; otherwise
    it returns the service's text stripped. Either way the question it
    returns neither begins nor ends with a character that [strip] removes,
    and the fallback question is not empty. *)
Theorem question_generator_never_fails self context w :
  let answer :=
    groq_client self (length (calls w)) (question_request system_prompt) in
  let q := question_of answer in
  value_of (_generate_compassionate_question self context w) = Some q
  ∧ (if failed answer then q = fallback_question
     else ∃ c, answer = Answers c ∧ q = Py.strip (text c))
  ∧ Py.lstrip q = q
  ∧ Py.rstrip q = q
  ∧ fallback_question ≠ EmptyString.
Proof.
  intros answer q. rewrite question_exact. fold answer. fold q.
  split; [done|]. unfold q. destruct answer as [e|c]; cbn [failed question_of].
  - by repeat split.
  - split; [by exists c|]. split; [apply strip_stripped|].
    split; [apply strip_stripped|done].
Qed.

(** X11. Each of the three generators leaves the session store as it is and
    issues exactly one request: the question request, the analysis request
    carrying the response, the essay request carrying the insights. It puts
    one error notice on the page when it falls back (the call failed or,
    for the analyzer, the text is not JSON) and draws nothing otherwise. *)
Theorem generators_touch_only_the_logs self w :
  (∀ context,
     let m := _generate_compassionate_question self context in
     let answer :=
       groq_client self (length (calls w)) (question_request system_prompt) in
     st (after m w) = st w
     ∧ issued m w = [question_request system_prompt]
     ∧ Forall (λ u, is_error u = true) (drawn m w)
     ∧ length (drawn m w) = if failed answer then 1 else 0)
  ∧ (∀ response,
       let m := _analyze_response_depth self response in
       let answer :=
         groq_client self (length (calls w)) (analysis_request response) in
       st (after m w) = st w
       ∧ issued m w = [analysis_request response]
       ∧ Forall (λ u, is_error u = true) (drawn m w)
       ∧ length (drawn m w) = if unusable answer then 1 else 0)
  ∧ (∀ insights,
       let m := _generate_intimate_essay self insights in
       let answer :=
         groq_client self (length (calls w))
           (essay_request (essay_prompt_for insights)) in
       st (after m w) = st w
       ∧ issued m w = [essay_request (essay_prompt_for insights)]
       ∧ Forall (λ u, is_error u = true) (drawn m w)
       ∧ length (drawn m w) = if failed answer then 1 else 0).
Proof.
  split; [|split].
  - intros context m answer. unfold issued, drawn, after, m.
    rewrite question_exact. cbn [st calls page]. fold answer.
    rewrite !drop_app_length. split; [done|]. split; [done|].
    destruct answer; cbn; by repeat constructor.
  - intros response m answer. unfold issued, drawn, after, m.
    rewrite analysis_exact. cbn [st calls page]. fold answer.
    rewrite !drop_app_length. split; [done|]. split; [done|].
    destruct answer as [e|[content [v|]]]; cbn; by repeat constructor.
  - intros insights m answer. unfold issued, drawn, after, m.
    rewrite essay_exact. cbn [st calls page]. fold answer.
    rewrite !drop_app_length. split; [done|]. split; [done|].
    destruct answer; cbn; by repeat constructor.
Qed.

(** X12. The essay request carries the insights: the prompt it sends is the
    essay prompt with its [{insights}] field replaced by the JSON text of
    the insight list, everything around the field unchanged; so two insight
    lists are sent the same prompt only if they have the same JSON text. *)
Theorem essay_prompt_carries_the_insights :
  essay_prompt
  = before_field essay_prompt +:+ "{insights}" +:+ after_field essay_prompt
  ∧ (∀ insights,
       essay_prompt_for insights
       = before_field essay_prompt +:+ Json.dumps (JList insights)
         +:+ after_field essay_prompt)
  ∧ (∀ a b,
       essay_prompt_for a = essay_prompt_for b
       ↔ Json.dumps (JList a) = Json.dumps (JList b)).
Proof.
  assert (∀ insights,
            essay_prompt_for insights
            = before_field essay_prompt +:+ Json.dumps (JList insights)
              +:+ after_field essay_prompt) as Hfilled.
  { intros insights. unfold essay_prompt_for. by rewrite essay_prompt_filled. }
  split; [by vm_compute|]. split; [exact Hfilled|].
  intros a b. rewrite !Hfilled. split; [|by intros ->].
  intros H. apply String.app_inj in H. by apply append_cancel_r in H.
Qed.

(** ** The page *)

Section Page.

Variable self : EssayTherapyCompanion.

Lemma notices_are_errors r :
  List.filter visible (question_notice r) = []
  ∧ List.filter visible (analysis_notice r) = []
  ∧ List.filter visible (essay_notice r) = [].
Proof. by destruct r as [e|[content [v|]]]. Qed.

Lemma no_notice r :
  (failed r = false → question_notice r = [] ∧ essay_notice r = [])
  ∧ (unusable r = false → analysis_notice r = []).
Proof. by destruct r as [e|[content [v|]]]. Qed.

End Page.

(** X13. No error notice without a failure: if no call to the service fails
    and every answer to an analysis request is JSON, then no [st.error] is
    ever drawn on the page, in any reachable world. *)
Theorem no_error_notice_without_a_failure self :
  (∀ k req, failed (groq_client self k req) = false) →
  (∀ k response,
     unusable (groq_client self k (analysis_request response)) = false) →
  ∀ w, reachable self w → Forall (λ u, is_error u = false) (page w).
Proof.
  intros Hcalls Hjson.
  assert (∀ k req, question_notice (groq_client self k req) = []) as Hq.
  { intros k req. by apply no_notice. }
  assert (∀ k req, essay_notice (groq_client self k req) = []) as He.
  { intros k req. by apply no_notice. }
  assert (∀ k response,
            analysis_notice (groq_client self k (analysis_request response)) = [])
    as Ha.
  { intros k response. by apply no_notice. }
  assert (∀ text w, Forall (λ u, is_error u = false) (page w) →
            Forall (λ u, is_error u = false)
              (page (after (submitResponse self text) w))) as Hsubmit.
  { intros [|c r] w Hw; [done|]. unfold after. rewrite submit_exact.
    destruct (_ <? 5); cbn [page]; rewrite Ha, ?Hq, ?He; cbn [app].
    - by rewrite app_nil_r.
    - apply Forall_app. split; [done|]. by repeat constructor. }
  induction 1 as [id|w Hw IH|w text Hw IH|w r Hw IH].
  - constructor.
  - destruct (reachable_consistent self w Hw) as (Hphase & _).
    unfold after. rewrite start_exact by done. cbn [page].
    by rewrite Hq, app_nil_r.
  - by apply Hsubmit.
  - destruct (reachable_consistent self w Hw) as (Hphase & _).
    unfold after at 1. rewrite script_exact by done.
    set (w1 := World _ _ _).
    assert (Forall (λ u, is_error u = false) (page w1)) as Hw1.
    { cbn [w1 page]. rewrite Hq. apply Forall_app. split; [done|].
      by repeat constructor. }
    destruct (button r); [by apply Hsubmit|done].
Qed.


Lemma no_error_notice_without_a_failure_witness :
  let w := after (interactive_exploration numbering
                    (ScriptRun "session" "I left home at nineteen." true))
             (fresh "session") in
  (∀ k req, failed (groq_client numbering k req) = false)
  ∧ (∀ k response,
       unusable (groq_client numbering k (analysis_request response)) = false)
  ∧ reachable numbering w
  ∧ Forall (λ u, is_error u = false) (page w).
Proof.
  assert (∀ k req, failed (groq_client numbering k req) = false) as Hcalls.
  { intros k req. reflexivity. }
  assert (∀ k response,
            unusable (groq_client numbering k (analysis_request response)) = false)
    as Hjson.
  { intros k response. reflexivity. }
  assert (reachable numbering
            (after (interactive_exploration numbering
                      (ScriptRun "session" "I left home at nineteen." true))
               (fresh "session"))) as Hw.
  { apply reachable_script, reachable_fresh. }
  split; [exact Hcalls|]. split; [exact Hjson|]. split; [exact Hw|].
  exact (no_error_notice_without_a_failure numbering Hcalls Hjson _ Hw).
Defined.

(** X14. What a run draws besides error notices: in a reachable world, the
    title, then the question generated at the start of this very run, and,
    exactly when the run stored a response that left five or more insights,
    the success line followed by the essay now in the store. *)
Theorem what_a_run_draws self r w :
  reachable self w →
  let m := interactive_exploration self r in
  let answer :=
    groq_client self (length (calls w)) (question_request system_prompt) in
  List.filter visible (drawn m w)
  = st_title "MiM Essay Personal Journey Companion"
    :: st_question (question_of answer)
    :: if clicked r && (5 <=? length (explored_depths (st (after m w))))
       then [ st_success "Your Personal Narrative Emerges...";
              st_write (essay_draft (st (after m w))) ]
       else [].
Proof.
  intros Hw m answer. destruct (reachable_consistent self w Hw) as (Hphase & _).
  unfold drawn, after, m, clicked. rewrite script_exact by done. fold answer.
  destruct (notices_are_errors answer) as (Hq & _ & _).
  destruct (button r); cbn [andb].
  2:{ cbn [mret M_ret page]. rewrite drop_app_length, !List.filter_app, Hq.
      reflexivity. }
  destruct (user_input r) as [|c s].
  { cbn [submitResponse Py.truthy mret M_ret page].
    rewrite drop_app_length, !List.filter_app, Hq. reflexivity. }
  rewrite submit_exact. cbn [Py.truthy andb calls st].
  destruct (_ <? 5) eqn:Hdepth; cbn [page st explored_depths essay_draft
    set_current_question set_essay_draft].
  - apply Nat.ltb_lt in Hdepth. rewrite (proj2 (Nat.leb_gt _ _) Hdepth).
    rewrite <- !app_assoc, drop_app_length, !List.filter_app, Hq.
    rewrite (proj1 (proj2 (notices_are_errors _))).
    rewrite (proj1 (notices_are_errors _)). reflexivity.
  - apply Nat.ltb_ge in Hdepth. rewrite (proj2 (Nat.leb_le _ _) Hdepth).
    rewrite <- !app_assoc, drop_app_length, !List.filter_app, Hq.
    rewrite (proj1 (proj2 (notices_are_errors _))).
    rewrite (proj2 (proj2 (notices_are_errors _))). reflexivity.
Qed.

Lemma what_a_run_draws_witness :
  let w := submit_all offline (take 4 five_reflections) (fresh "session") in
  let r := ScriptRun "session" "I want to build things that last." true in
  reachable offline w
  ∧ List.filter visible (drawn (interactive_exploration offline r) w)
    = [ st_title "MiM Essay Personal Journey Companion";
        st_question fallback_question;
        st_success "Your Personal Narrative Emerges...";
        st_write (Some fallback_essay) ].
Proof.
  assert (reachable offline
            (submit_all offline (take 4 five_reflections) (fresh "session")))
    as Hw.
  { apply submit_all_reachable, reachable_fresh. }
  split; [exact Hw|].
  exact (what_a_run_draws offline
           (ScriptRun "session" "I want to build things that last." true) _ Hw).
Defined.

(** ** Synthesis and the question on the page *)

Section Synthesis.

Lemma no_question_in_a_notice r :
  questions_shown (question_notice r) = []
  ∧ questions_shown (analysis_notice r) = []
  ∧ questions_shown (essay_notice r) = [].
Proof. by destruct r as [e|[content [v|]]]. Qed.

Lemma questions_shown_app p1 p2 :
  questions_shown (p1 ++ p2) = questions_shown p1 ++ questions_shown p2.
Proof. apply omap_app. Qed.

End Synthesis.

(** C10, as the code has it. When a submission in a reachable world brings
    the number of insights to five, the essay is synthesized and the
    submission body leaves [current_question] as it found it; the responses
    stored before keep their indices, the insights recorded before stay in
    front of the new one, and the body asks for a question exactly when the
    number of insights is below five afterwards. The question so left is the
    one of the run itself: a script run that sends such a response first
    generates a question, draws it as the only question of the run, and that
    question is what [current_question] holds when the run is over, whatever
    question was stored or shown before. *)
Theorem synthesis_keeps_the_question_of_its_run self w c r :
  reachable self w →
  let w' := after (submitResponse self (String c r)) w in
  ((length (explored_depths (st w)) = 4 →
      current_question (st w') = current_question (st w)
      ∧ is_Some (essay_draft (st w')))
   ∧ (∀ k, is_Some (responses (st w) !! k) →
        responses (st w') !! k = responses (st w) !! k)
   ∧ take (length (explored_depths (st w))) (explored_depths (st w'))
     = explored_depths (st w)
   ∧ ∃ req,
       calls w' = calls w ++ [analysis_request (String c r); req]
       ∧ (req = question_request system_prompt
          ↔ length (explored_depths (st w')) < 5))
  ∧ ∀ id,
      let run := interactive_exploration self (ScriptRun id (String c r) true) in
      let asked :=
        question_of
          (groq_client self (length (calls w)) (question_request system_prompt)) in
      length (explored_depths (st w)) = 4 →
      questions_shown (drawn run w) = [asked]
      ∧ current_question (st (after run w)) = Some asked
      ∧ length (explored_depths (st (after run w))) = 5
      ∧ is_Some (essay_draft (st (after run w))).
Proof.
  intros Hw w'. split; [by apply submission_frame|].
  intros id run asked Hfour.
  destruct (reachable_consistent self w Hw) as (Hphase & _).
  unfold drawn, after, run. rewrite script_exact by done.
  cbn [button user_input]. rewrite submit_exact.
  set (s := recorded _ _ _).
  assert (length (explored_depths s) = 5) as Hfive.
  { unfold s. cbn. rewrite length_app, Hfour. done. }
  rewrite Hfive. cbn [Nat.ltb Nat.leb st page].
  cbn [current_question explored_depths essay_draft set_essay_draft].
  split; [|split; [reflexivity|split; [exact Hfive|by eexists]]].
  rewrite <- !app_assoc, drop_app_length, !questions_shown_app.
  destruct (no_question_in_a_notice
              (groq_client self (length (calls w)) (question_request system_prompt)))
    as (-> & _ & _).
  rewrite (proj1 (proj2 (no_question_in_a_notice _))).
  rewrite (proj2 (proj2 (no_question_in_a_notice _))).
  reflexivity.
Qed.

Lemma synthesis_keeps_the_question_of_its_run_witness :
  let w := submit_all offline (take 4 five_reflections) (fresh "session") in
  let run := interactive_exploration offline fifth_click in
  reachable offline w
  ∧ length (explored_depths (st w)) = 4
  ∧ questions_shown (drawn run w) = [fallback_question]
  ∧ current_question (st (after run w)) = Some fallback_question.
Proof.
  assert (reachable offline
            (submit_all offline (take 4 five_reflections) (fresh "session")))
    as Hw by apply submit_all_reachable, reachable_fresh.
  split; [exact Hw|]. split; [reflexivity|].
  pose proof (proj2 (synthesis_keeps_the_question_of_its_run offline _ "I"
                       " want to build things that last." Hw)
                "session" eq_refl) as H.
  split; [exact (proj1 H)|exact (proj1 (proj2 H))].
Defined.

(** C10 as stated fails: the question under which the fifth response was
    written is not the one [current_question] is left at. After a first
    look and four clicks the last question drawn is that of call 10 and the
    store holds that of call 12, never drawn; the run that sends the fifth
    response and synthesizes the essay leaves the question of call 13. *)
Lemma eliciting_question_is_replaced :
  let w5 := after (interactive_exploration counting fifth_click)
              after_four_clicks in
  session counting four_clicks None = Some after_four_clicks
  ∧ length (explored_depths (st after_four_clicks)) = 4
  ∧ last (questions_shown (page after_four_clicks)) = Some "answer 10"
  ∧ current_question (st after_four_clicks) = Some "answer 12"
  ∧ length (explored_depths (st w5)) = 5
  ∧ essay_draft (st w5) = Some "answer 15"
  ∧ current_question (st w5) = Some "answer 13".
Proof. by vm_compute. Qed.
